(** * Mergington High School activities API: enrollment rules

    A shallow embedding of [src/app.py].  The module-level dictionary
    [activities] is the only mutable state of the service; the two mutating
    handlers, [signup_for_activity] and [remove_from_activity], are modelled
    as functions from the current catalog to either a new catalog with the
    JSON reply or the exception they raise.

    A Python [dict] iterates in insertion order and the handlers never add or
    delete a key, so the catalog is an association list: the order of its
    bindings is the iteration order of [activities.items()]. *)

From Stdlib Require Import String List ZArith Lia Bool Arith.
Import ListNotations.
Open Scope string_scope.

(** ** Exceptions and results *)

Module Py.

(** The exceptions the handlers can raise: FastAPI's [HTTPException], and
    the built-in [KeyError] (subscript on a missing key) and [ValueError]
    ([list.remove] of an absent element). *)
Inductive exn : Type :=
| HTTPException (status_code : Z) (detail : string)
| KeyError (key : string)
| ValueError.

Inductive result (A : Type) : Type :=
| Ok (a : A)
| Raise (e : exn).
Arguments Ok {A} a.
Arguments Raise {A} e.

Definition bind {A B : Type} (m : result A) (k : A -> result B) : result B :=
  match m with
  | Ok a => k a
  | Raise e => Raise e
  end.

(** *** Dictionaries with string keys, in insertion order *)

Definition dict (V : Type) : Type := list (string * V).

Fixpoint get {V : Type} (d : dict V) (k : string) : option V :=
  match d with
  | [] => None
  | (k', v) :: d' => if string_dec k k' then Some v else get d' k
  end.

(** [k in d] *)
Definition contains {V : Type} (d : dict V) (k : string) : bool :=
  match get d k with
  | Some _ => true
  | None => false
  end.

(** [d[k]] *)
Definition subscript {V : Type} (d : dict V) (k : string) : result V :=
  match get d k with
  | Some v => Ok v
  | None => Raise (KeyError k)
  end.

(** In-place mutation of the object stored under [k]: the binding keeps its
    position, every other binding is untouched. *)
Fixpoint update {V : Type} (d : dict V) (k : string) (f : V -> V) : dict V :=
  match d with
  | [] => []
  | (k', v) :: d' =>
      if string_dec k k' then (k', f v) :: d' else (k', v) :: update d' k f
  end.

Definition keys {V : Type} (d : dict V) : list string := map fst d.

(** *** Lists of strings *)

(** [x in l] *)
Definition mem (x : string) (l : list string) : bool :=
  if in_dec string_dec x l then true else false.

(** [l.remove(x)]: drops the first occurrence, [ValueError] when absent. *)
Fixpoint remove (x : string) (l : list string) : result (list string) :=
  match l with
  | [] => Raise ValueError
  | y :: l' =>
      if string_dec x y then Ok l'
      else bind (remove x l') (fun r => Ok (y :: r))
  end.

End Py.

Import Py.

Notation "x <- m ;; k" := (bind m (fun x => k))
  (at level 61, m at next level, right associativity).

(** ** Data model *)

Record Activity : Type := mkActivity {
  description : string;
  schedule : string;
  max_participants : Z;
  participants : list string
}.

Definition Catalog : Type := dict Activity.

(** The body of a successful reply, [{"message": ...}]. *)
Record Reply : Type := mkReply { message : string }.

Definition with_participants (a : Activity) (ps : list string) : Activity :=
  {| description := description a;
     schedule := schedule a;
     max_participants := max_participants a;
     participants := ps |}.

(** [activity["participants"].append(email)] *)
Definition append_participant (email : string) (a : Activity) : Activity :=
  with_participants a (participants a ++ [email])%list.

(** ** Module-level tables *)

Definition activity_categories : dict string :=
  [ ("Chess Club", "Sports");
    ("Programming Class", "STEM");
    ("Gym Class", "Sports");
    ("Soccer Team", "Sports");
    ("Swimming Club", "Sports");
    ("Art Club", "Arts");
    ("Drama Club", "Arts");
    ("Debate Team", "Academic");
    ("Science Olympiad", "STEM");
    ("Book Club", "Arts") ].

(** The seed value of the in-memory database. *)
Definition activities : Catalog :=
  [ ("Chess Club",
     mkActivity "Learn strategies and compete in chess tournaments"
                "Fridays, 3:30 PM - 5:00 PM" 12
                ["michael@mergington.edu"; "daniel@mergington.edu"]);
    ("Programming Class",
     mkActivity "Learn programming fundamentals and build software projects"
                "Tuesdays and Thursdays, 3:30 PM - 4:30 PM" 20
                ["emma@mergington.edu"; "sophia@mergington.edu"]);
    ("Gym Class",
     mkActivity "Physical education and sports activities"
                "Mondays, Wednesdays, Fridays, 2:00 PM - 3:00 PM" 30
                ["john@mergington.edu"; "olivia@mergington.edu"]);
    ("Soccer Team",
     mkActivity "Join the varsity soccer team and compete against other schools"
                "Mondays and Wednesdays, 4:00 PM - 6:00 PM" 25
                ["lucas@mergington.edu"; "mia@mergington.edu"]);
    ("Swimming Club",
     mkActivity "Practice swimming techniques and compete in swim meets"
                "Tuesdays and Thursdays, 4:00 PM - 5:30 PM" 15
                ["ethan@mergington.edu"; "ava@mergington.edu"]);
    ("Art Club",
     mkActivity "Explore various art mediums including painting, drawing, and sculpture"
                "Thursdays, 3:30 PM - 5:00 PM" 18
                ["lily@mergington.edu"; "noah@mergington.edu"]);
    ("Drama Club",
     mkActivity "Participate in theater productions and improve acting skills"
                "Wednesdays and Fridays, 3:30 PM - 5:30 PM" 22
                ["isabella@mergington.edu"; "james@mergington.edu"]);
    ("Debate Team",
     mkActivity "Develop critical thinking and public speaking through competitive debates"
                "Tuesdays, 4:00 PM - 5:30 PM" 16
                ["alexander@mergington.edu"; "charlotte@mergington.edu"]);
    ("Science Olympiad",
     mkActivity "Compete in science and engineering challenges at regional competitions"
                "Mondays and Thursdays, 3:30 PM - 5:00 PM" 20
                ["william@mergington.edu"; "amelia@mergington.edu"]);
    ("Book Club",
     mkActivity "Read and discuss classic and contemporary literature"
                "Fridays, 3:00 PM - 4:30 PM" 15
                []) ].

(** ** Handlers *)

(** [get_activities]: the catalog itself. *)
Definition get_activities (db : Catalog) : Catalog := db.

(** [get_student_activities]: the loop over [activities.items()], appending
    to the accumulator [enrolled_activities]. *)
Definition get_student_activities (db : Catalog) (email : string) : list string :=
  fold_left
    (fun enrolled_activities item =>
       if mem email (participants (snd item))
       then (enrolled_activities ++ [fst item])%list
       else enrolled_activities)
    db [].

Definition limit_detail : string :=
  "Student is already enrolled in 3 activities. Cannot enroll in more than 3 programs.".

Definition category_detail (enrolled_activity new_category : string) : string :=
  "Student is already enrolled in '" ++ enrolled_activity
  ++ "' which is in the same category (" ++ new_category
  ++ "). Cannot enroll in multiple programs of the same type.".

(** The [for enrolled_activity in enrolled_activities] loop of
    [signup_for_activity]. *)
Fixpoint check_categories (new_category : string) (enrolled_activities : list string)
  : result unit :=
  match enrolled_activities with
  | [] => Ok tt
  | enrolled_activity :: rest =>
      enrolled_category <- subscript activity_categories enrolled_activity ;;
      if string_dec enrolled_category new_category
      then Raise (HTTPException 400 (category_detail enrolled_activity new_category))
      else check_categories new_category rest
  end.

Definition signup_for_activity (db : Catalog) (activity_name email : string)
  : result (Catalog * Reply) :=
  if negb (contains db activity_name)
  then Raise (HTTPException 404 "Activity not found")
  else
    activity <- subscript db activity_name ;;
    if mem email (participants activity)
    then Raise (HTTPException 400 "Student already signed up for this activity")
    else
      let enrolled_activities := get_student_activities db email in
      if (3 <=? length enrolled_activities)%nat
      then Raise (HTTPException 400 limit_detail)
      else
        new_category <- subscript activity_categories activity_name ;;
        _ <- check_categories new_category enrolled_activities ;;
        Ok (update db activity_name (append_participant email),
            mkReply ("Signed up " ++ email ++ " for " ++ activity_name)).

Definition remove_from_activity (db : Catalog) (activity_name email : string)
  : result (Catalog * Reply) :=
  if negb (contains db activity_name)
  then Raise (HTTPException 404 "Activity not found")
  else
    activity <- subscript db activity_name ;;
    if negb (mem email (participants activity))
    then Raise (HTTPException 400 "Student is not signed up for this activity")
    else
      ps <- remove email (participants activity) ;;
      Ok (update db activity_name (fun a => with_participants a ps),
          mkReply ("Removed " ++ email ++ " from " ++ activity_name)).

(** ** Sequences of requests

    The router turns a raised exception into an error response; the handler
    has not mutated anything at that point, so the catalog is unchanged. *)

Inductive request : Type :=
| Signup (activity_name email : string)
| Remove (activity_name email : string).

Definition dispatch (db : Catalog) (r : request) : result (Catalog * Reply) :=
  match r with
  | Signup activity_name email => signup_for_activity db activity_name email
  | Remove activity_name email => remove_from_activity db activity_name email
  end.

Definition serve (db : Catalog) (r : request) : Catalog :=
  match dispatch db r with
  | Ok (db', _) => db'
  | Raise _ => db
  end.

Definition run (db : Catalog) (rs : list request) : Catalog :=
  fold_left serve rs db.

(** ** Specification vocabulary *)

(** [s] occurs in [t]. *)
Definition occurs_in (s t : string) : Prop :=
  exists before after, t = before ++ s ++ after.

(** The number of activities whose participant list contains [email]. *)
Definition enrollment_count (db : Catalog) (email : string) : nat :=
  length (filter (fun item => mem email (participants (snd item))) db).

(** The category of an activity, when the table has one. *)
Definition category_of (activity_name : string) : option string :=
  get activity_categories activity_name.

(** [other] is an activity, different from [activity_name], in which [email]
    is enrolled and whose category is that of [activity_name]. *)
Definition category_clash (activity_name email : string) (item : string * Activity) : Prop :=
  fst item <> activity_name /\
  In email (participants (snd item)) /\
  category_of (fst item) = category_of activity_name.

(** The data-model invariants of a catalog: keys are unique (it is a
    dictionary) and every key has a category. *)
Definition well_formed (db : Catalog) : Prop :=
  NoDup (keys db) /\ forall k, In k (keys db) -> category_of k <> None.

(** No participant list holds the same email twice. *)
Definition participants_unique (db : Catalog) : Prop :=
  forall name a, In (name, a) db -> NoDup (participants a).

(** [email] is in at most one activity of each category. *)
Definition one_per_category (db : Catalog) (email : string) : Prop :=
  forall n1 a1 n2 a2,
    In (n1, a1) db -> In (n2, a2) db -> n1 <> n2 ->
    In email (participants a1) -> In email (participants a2) ->
    category_of n1 <> category_of n2.

Definition enrollment_rules (db : Catalog) : Prop :=
  forall email, enrollment_count db email <= 3 /\ one_per_category db email.

(** ** Executable checks and sample states *)

Definition enrolled_in (email : string) (item : string * Activity) : bool :=
  mem email (participants (snd item)).

(** One student signed up for three activities of three different
    categories. *)
Definition busy_student : string := "busy@mergington.edu".

Definition three_enrollments : Catalog :=
  run activities
    [ Signup "Chess Club" busy_student;
      Signup "Programming Class" busy_student;
      Signup "Debate Team" busy_student ].

(** Chess Club filled up to its capacity of twelve. *)
Definition chess_club_full : Catalog :=
  run activities
    (map (Signup "Chess Club")
       [ "s01@mergington.edu"; "s02@mergington.edu"; "s03@mergington.edu";
         "s04@mergington.edu"; "s05@mergington.edu"; "s06@mergington.edu";
         "s07@mergington.edu"; "s08@mergington.edu"; "s09@mergington.edu";
         "s10@mergington.edu" ]).

Fixpoint distinct (l : list string) : bool :=
  match l with
  | [] => true
  | x :: l' => negb (mem x l') && distinct l'
  end.

Definition well_formedb (db : Catalog) : bool :=
  distinct (keys db) && forallb (contains activity_categories) (keys db).

(** [category_clash], as a test. *)
Definition category_clashb (activity_name email : string) (item : string * Activity)
  : bool :=
  (if string_dec (fst item) activity_name then false else true)
  && mem email (participants (snd item))
  && match category_of (fst item), category_of activity_name with
     | Some c1, Some c2 => if string_dec c1 c2 then true else false
     | None, None => true
     | _, _ => false
     end.

Definition no_clash (activity_name email : string) (db : Catalog) : bool :=
  forallb (fun item => negb (category_clashb activity_name email item)) db.

Definition chess_club_twelve : Activity :=
  mkActivity "Learn strategies and compete in chess tournaments"
    "Fridays, 3:30 PM - 5:00 PM" 12
    [ "michael@mergington.edu"; "daniel@mergington.edu";
      "s01@mergington.edu"; "s02@mergington.edu"; "s03@mergington.edu";
      "s04@mergington.edu"; "s05@mergington.edu"; "s06@mergington.edu";
      "s07@mergington.edu"; "s08@mergington.edu"; "s09@mergington.edu";
      "s10@mergington.edu" ].

Definition has_clash (activity_name email : string) (db : Catalog) : bool :=
  existsb (category_clashb activity_name email) db.

(** A student in Programming Class (STEM) and Gym Class (Sports). *)
Definition athlete : string := "athlete@mergington.edu".

Definition two_enrollments : Catalog :=
  run activities [ Signup "Programming Class" athlete; Signup "Gym Class" athlete ].

Definition soccer_team : Activity :=
  mkActivity "Join the varsity soccer team and compete against other schools"
    "Mondays and Wednesdays, 4:00 PM - 6:00 PM" 25
    ["lucas@mergington.edu"; "mia@mergington.edu"].

Definition participants_uniqueb (db : Catalog) : bool :=
  forallb (fun item => distinct (participants (snd item))) db.

Definition roster (db : Catalog) : list string :=
  flat_map (fun item => participants (snd item)) db.

(** ** More of the repository

    The fields of an activity that no handler writes. *)
Definition static_fields (a : Activity) : string * string * Z :=
  (description a, schedule a, max_participants a).

(** The fixture [reset_activities] of [tests/test_app.py].  Before the test
    it builds [original_activities], a copy of every entry of [activities];
    after the test it walks the copy and, for each name still in
    [activities], assigns a copy of the saved participant list. *)
Definition original_activities (db : Catalog) : Catalog :=
  map
    (fun item =>
       (fst item,
        {| description := description (snd item);
           schedule := schedule (snd item);
           max_participants := max_participants (snd item);
           participants := participants (snd item) |}))
    db.

Definition restore_activities (original db : Catalog) : Catalog :=
  fold_left
    (fun current item =>
       if contains current (fst item)
       then update current (fst item)
              (fun a => with_participants a (participants (snd item)))
       else current)
    original db.

(** The fixture around a test that issues [test_requests]. *)
Definition reset_activities (db : Catalog) (test_requests : list request) : Catalog :=
  let original := original_activities db in
  restore_activities original (run db test_requests).

(** An activity that the category table does not know. *)
Definition robotics : Catalog :=
  [ ("Robotics Club",
     mkActivity "Build and program robots" "Saturdays, 10:00 AM - 12:00 PM" 10
       ["ada@mergington.edu"]) ].

(** The student a request is made for, and what the client gets back. *)
Definition requester (r : request) : string :=
  match r with
  | Signup _ email => email
  | Remove _ email => email
  end.

Definition outcome (res : result (Catalog * Reply)) : result Reply :=
  match res with
  | Ok (_, reply) => Ok reply
  | Raise e => Raise e
  end.

(** The exception is one the handlers raise on purpose: a 404 or a 400. *)
Definition client_error (e : exn) : bool :=
  match e with
  | HTTPException status_code _ => ((status_code =? 404) || (status_code =? 400))%Z
  | KeyError _ => false
  | ValueError => false
  end.

(** ** Dictionaries and lists *)

Section DictFacts.

Context {V : Type}.
Implicit Types (d : dict V) (k : string) (v : V) (f : V -> V).

Lemma get_In d k v : get d k = Some v -> In (k, v) d.
Proof.
  induction d as [|[k' v'] d IH]; simpl; [discriminate|].
  destruct (string_dec k k') as [->|Hne]; intros H.
  - left. congruence.
  - right. auto.
Qed.

Lemma get_None d k : get d k = None <-> ~ In k (keys d).
Proof.
  induction d as [|[k' v'] d IH]; simpl.
  - tauto.
  - destruct (string_dec k k') as [->|Hne].
    + split; [discriminate | intros H; exfalso; apply H; now left].
    + rewrite IH. split; intros H.
      * intros [E|HIn]; [congruence | tauto].
      * tauto.
Qed.

Lemma In_get d k v : NoDup (keys d) -> In (k, v) d -> get d k = Some v.
Proof.
  induction d as [|[k' v'] d IH]; simpl; [tauto|].
  intros Hnd [E|HIn].
  - inversion E; subst. destruct (string_dec k k); congruence.
  - inversion Hnd as [|? ? Hnotin Hnd']; subst.
    destruct (string_dec k k') as [->|Hne]; [|auto].
    exfalso. apply Hnotin. change k' with (fst (k', v)). now apply in_map.
Qed.

Lemma contains_true d k : contains d k = true <-> In k (keys d).
Proof.
  unfold contains. destruct (get d k) eqn:E.
  - split; [|reflexivity]. intros _.
    change k with (fst (k, v)). apply in_map. now apply get_In.
  - apply get_None in E. split; [discriminate | tauto].
Qed.

Lemma contains_false d k : contains d k = false <-> get d k = None.
Proof. unfold contains. destruct (get d k); split; congruence. Qed.

Lemma subscript_get d k v : get d k = Some v -> subscript d k = Ok v.
Proof. unfold subscript. now intros ->. Qed.

Lemma keys_update d k f : keys (update d k f) = keys d.
Proof.
  induction d as [|[k' v'] d IH]; simpl; [reflexivity|].
  destruct (string_dec k k'); simpl; [reflexivity | now rewrite IH].
Qed.

Lemma get_update_eq d k f : get (update d k f) k = option_map f (get d k).
Proof.
  induction d as [|[k' v'] d IH]; simpl; [reflexivity|].
  destruct (string_dec k k') as [->|Hne]; simpl.
  - destruct (string_dec k' k'); [reflexivity | congruence].
  - destruct (string_dec k k'); [congruence | exact IH].
Qed.

Lemma get_update_ne d k k' f : k' <> k -> get (update d k f) k' = get d k'.
Proof.
  intros Hne. induction d as [|[k0 v0] d IH]; simpl; [reflexivity|].
  destruct (string_dec k k0) as [->|Hk]; simpl.
  - destruct (string_dec k' k0); [congruence | reflexivity].
  - destruct (string_dec k' k0); [reflexivity | exact IH].
Qed.

(** A mutation changes the number of bindings satisfying [p] by at most
    one, and not at all when [f] does not change [p]. *)
Lemma filter_update_le (p : V -> bool) d k f :
  length (filter (fun item => p (snd item)) (update d k f))
  <= S (length (filter (fun item => p (snd item)) d)).
Proof.
  induction d as [|[k0 v0] d IH]; simpl; [lia|].
  destruct (string_dec k k0) as [->|Hk]; simpl.
  - destruct (p (f v0)), (p v0); simpl; lia.
  - destruct (p v0); simpl; lia.
Qed.

Lemma filter_update_same (p : V -> bool) d k f :
  (forall v, p (f v) = p v) ->
  length (filter (fun item => p (snd item)) (update d k f))
  = length (filter (fun item => p (snd item)) d).
Proof.
  intros Hp. induction d as [|[k0 v0] d IH]; simpl; [reflexivity|].
  destruct (string_dec k k0) as [->|Hk]; simpl.
  - rewrite Hp. destruct (p v0); reflexivity.
  - destruct (p v0); simpl; rewrite IH; reflexivity.
Qed.

Lemma filter_update_shrink (p : V -> bool) d k f v :
  get d k = Some v ->
  (p (f v) = true -> p v = true) ->
  length (filter (fun item => p (snd item)) (update d k f))
  <= length (filter (fun item => p (snd item)) d).
Proof.
  induction d as [|[k0 v0] d IH]; simpl; [lia|].
  destruct (string_dec k k0) as [->|Hk]; simpl; intros Hget Hp.
  - inversion Hget; subst v0.
    destruct (p (f v)) eqn:E; [rewrite (Hp eq_refl); simpl; lia|].
    destruct (p v); simpl; lia.
  - specialize (IH Hget Hp). destruct (p v0); simpl; lia.
Qed.

End DictFacts.

Lemma mem_true x l : mem x l = true <-> In x l.
Proof. unfold mem. destruct (in_dec string_dec x l); split; congruence || tauto. Qed.

Lemma mem_false x l : mem x l = false <-> ~ In x l.
Proof. unfold mem. destruct (in_dec string_dec x l); split; congruence || tauto. Qed.

Lemma mem_app_other x y l : x <> y -> mem x (l ++ [y])%list = mem x l.
Proof.
  intros Hne. destruct (mem x l) eqn:E.
  - apply mem_true. apply in_or_app. left. now apply mem_true.
  - apply mem_false. apply mem_false in E. intros H.
    apply in_app_or in H as [H|[H|[]]]; [tauto | congruence].
Qed.

(** [list.remove] on a list that holds [x]: the part before the first
    occurrence and the part after it are kept, in order. *)
Lemma remove_first x l1 l2 :
  ~ In x l1 -> remove x (l1 ++ x :: l2) = Ok (l1 ++ l2)%list.
Proof.
  induction l1 as [|y l1 IH]; simpl; intros Hnot.
  - destruct (string_dec x x); congruence.
  - destruct (string_dec x y) as [->|Hne]; [tauto|].
    rewrite IH by tauto. reflexivity.
Qed.

Lemma remove_In (x : string) l : In x l -> exists l1 l2, l = (l1 ++ x :: l2)%list /\ ~ In x l1.
Proof.
  induction l as [|y l IH]; simpl; [tauto|].
  destruct (string_dec x y) as [->|Hne]; intros H.
  - exists [], l. split; [reflexivity | tauto].
  - destruct H as [E|H]; [congruence|].
    destruct (IH H) as (l1 & l2 & -> & Hnot).
    exists (y :: l1), l2. split; [reflexivity|].
    simpl. intros [E|H1]; [congruence | tauto].
Qed.

Lemma remove_absent x l : ~ In x l -> remove x l = Raise ValueError.
Proof.
  induction l as [|y l IH]; simpl; intros Hnot; [reflexivity|].
  destruct (string_dec x y) as [->|Hne]; [tauto|].
  rewrite IH by tauto. reflexivity.
Qed.

Lemma remove_append x l : ~ In x l -> remove x (l ++ [x])%list = Ok l.
Proof.
  intros Hnot. rewrite (remove_first x l [] Hnot). now rewrite app_nil_r.
Qed.

(** ** The enrollment scan *)

Lemma scan_accumulates db email acc :
  fold_left
    (fun enrolled_activities item =>
       if mem email (participants (snd item))
       then (enrolled_activities ++ [fst item])%list
       else enrolled_activities)
    db acc
  = (acc ++ map fst (filter (enrolled_in email) db))%list.
Proof.
  revert acc. induction db as [|[name a] db IH]; intros acc; simpl.
  - now rewrite app_nil_r.
  - rewrite IH. unfold enrolled_in at 2. simpl.
    destruct (mem email (participants a)); simpl; [|reflexivity].
    now rewrite <- app_assoc.
Qed.

Lemma get_student_activities_filter db email :
  get_student_activities db email = map fst (filter (enrolled_in email) db).
Proof. unfold get_student_activities. now rewrite scan_accumulates. Qed.

Lemma length_get_student_activities db email :
  length (get_student_activities db email) = enrollment_count db email.
Proof.
  rewrite get_student_activities_filter, length_map. reflexivity.
Qed.

Lemma In_get_student_activities db email name :
  In name (get_student_activities db email) <->
  exists a, In (name, a) db /\ In email (participants a).
Proof.
  rewrite get_student_activities_filter, in_map_iff. split.
  - intros ([n a] & <- & H). apply filter_In in H as [HIn Hmem].
    exists a. split; [exact HIn | now apply mem_true].
  - intros (a & HIn & He). exists (name, a). split; [reflexivity|].
    apply filter_In. split; [exact HIn | now apply mem_true].
Qed.

(** The scan follows a split of the catalog. *)
Lemma get_student_activities_app db1 db2 email :
  get_student_activities (db1 ++ db2)%list email
  = (get_student_activities db1 email ++ get_student_activities db2 email)%list.
Proof.
  rewrite !get_student_activities_filter, filter_app, map_app. reflexivity.
Qed.

(** ** The category loop *)

Lemma check_categories_pass new_category enrolled :
  (forall name, In name enrolled ->
     exists c, category_of name = Some c /\ c <> new_category) ->
  check_categories new_category enrolled = Ok tt.
Proof.
  induction enrolled as [|name rest IH]; simpl; intros H; [reflexivity|].
  destruct (H name (or_introl eq_refl)) as (c & Hc & Hne).
  unfold subscript. unfold category_of in Hc. rewrite Hc. simpl.
  destruct (string_dec c new_category); [contradiction|].
  apply IH. intros m Hm. apply H. now right.
Qed.

Lemma check_categories_Ok new_category enrolled :
  check_categories new_category enrolled = Ok tt ->
  forall name, In name enrolled ->
    exists c, category_of name = Some c /\ c <> new_category.
Proof.
  induction enrolled as [|n rest IH]; simpl; intros H name; [tauto|].
  unfold subscript in H. destruct (get activity_categories n) as [c|] eqn:Hc;
    simpl in H; [|discriminate].
  destruct (string_dec c new_category) as [E|Hne]; [discriminate|].
  intros [<-|HIn]; [exists c; auto | now apply IH].
Qed.

Lemma check_categories_first new_category before name rest :
  (forall n, In n before ->
     exists c, category_of n = Some c /\ c <> new_category) ->
  category_of name = Some new_category ->
  check_categories new_category (before ++ name :: rest)
  = Raise (HTTPException 400 (category_detail name new_category)).
Proof.
  induction before as [|n before IH]; simpl; intros H Hname.
  - unfold subscript. unfold category_of in Hname. rewrite Hname. simpl.
    destruct (string_dec new_category new_category); congruence.
  - destruct (H n (or_introl eq_refl)) as (c & Hc & Hne).
    unfold subscript. unfold category_of in Hc. rewrite Hc. simpl.
    destruct (string_dec c new_category); [contradiction|].
    apply IH; [|exact Hname]. intros m Hm. apply H. now right.
Qed.

(** ** Shape of the handlers' results *)

Lemma signup_Ok db activity_name email db' reply :
  signup_for_activity db activity_name email = Ok (db', reply) ->
  exists activity new_category,
    get db activity_name = Some activity /\
    ~ In email (participants activity) /\
    enrollment_count db email < 3 /\
    category_of activity_name = Some new_category /\
    check_categories new_category (get_student_activities db email) = Ok tt /\
    db' = update db activity_name (append_participant email) /\
    reply = mkReply ("Signed up " ++ email ++ " for " ++ activity_name).
Proof.
  unfold signup_for_activity, subscript, contains, category_of.
  destruct (get db activity_name) as [activity|]; cbn [bind negb]; [|discriminate].
  destruct (mem email (participants activity)) eqn:Hmem; [discriminate|].
  destruct (3 <=? length (get_student_activities db email))%nat eqn:Hlen;
    [discriminate|].
  destruct (get activity_categories activity_name) as [c|]; cbn [bind negb]; [|discriminate].
  destruct (check_categories c (get_student_activities db email)) as [[]|] eqn:Hchk;
    cbn [bind negb]; [|discriminate].
  intros H. inversion H; subst. exists activity, c.
  apply mem_false in Hmem. apply Nat.leb_gt in Hlen.
  rewrite length_get_student_activities in Hlen. auto 10.
Qed.

Lemma remove_Ok db activity_name email db' reply :
  remove_from_activity db activity_name email = Ok (db', reply) ->
  exists activity ps,
    get db activity_name = Some activity /\
    In email (participants activity) /\
    remove email (participants activity) = Ok ps /\
    db' = update db activity_name (fun a => with_participants a ps) /\
    reply = mkReply ("Removed " ++ email ++ " from " ++ activity_name).
Proof.
  unfold remove_from_activity, subscript, contains.
  destruct (get db activity_name) as [activity|]; cbn [bind negb]; [|discriminate].
  destruct (mem email (participants activity)) eqn:Hmem; cbn [bind negb]; [|discriminate].
  destruct (remove email (participants activity)) as [ps|] eqn:Hrm;
    cbn [bind negb]; [|discriminate].
  intros H. inversion H; subst. exists activity, ps.
  apply mem_true in Hmem. auto 10.
Qed.

(** A successful signup, from the conditions the handler evaluates. *)
Lemma signup_run db activity_name email activity new_category :
  get db activity_name = Some activity ->
  ~ In email (participants activity) ->
  enrollment_count db email < 3 ->
  category_of activity_name = Some new_category ->
  check_categories new_category (get_student_activities db email) = Ok tt ->
  signup_for_activity db activity_name email
  = Ok (update db activity_name (append_participant email),
        mkReply ("Signed up " ++ email ++ " for " ++ activity_name)).
Proof.
  intros Hget Hnot Hcount Hcat Hchk.
  unfold signup_for_activity, subscript, contains.
  rewrite Hget. cbn [bind negb].
  apply mem_false in Hnot. rewrite Hnot.
  rewrite length_get_student_activities.
  apply Nat.leb_gt in Hcount. rewrite Hcount.
  unfold category_of in Hcat. rewrite Hcat. cbn [bind negb].
  rewrite Hchk. reflexivity.
Qed.

Lemma append_assoc (s t u : string) : (s ++ t) ++ u = s ++ t ++ u.
Proof. induction s as [|c s IH]; simpl; [reflexivity | now rewrite IH]. Qed.

Lemma append_empty_r (s : string) : s ++ "" = s.
Proof. induction s as [|c s IH]; simpl; [reflexivity | now rewrite IH]. Qed.

Lemma occurs_in_here s after : occurs_in s (s ++ after).
Proof. now exists "", after. Qed.

Lemma occurs_in_self s : occurs_in s s.
Proof. exists "", "". simpl. now rewrite append_empty_r. Qed.

Lemma occurs_in_skip prefix s t : occurs_in s t -> occurs_in s (prefix ++ t).
Proof.
  intros (before & after & ->). exists (prefix ++ before), after.
  now rewrite append_assoc.
Qed.

Ltac occurs :=
  repeat first
    [ apply occurs_in_here | apply occurs_in_self | apply occurs_in_skip ].

(** ** Error paths of [signup_for_activity] and [remove_from_activity] *)

(** C6. When [activity_name] is not a key of the catalog, both
    [signup_for_activity] and [remove_from_activity] raise
    [HTTPException 404 "Activity not found"], whatever the catalog and the
    email are. *)
Theorem unknown_activity_not_found db activity_name email :
  ~ In activity_name (keys db) ->
  signup_for_activity db activity_name email
    = Raise (HTTPException 404 "Activity not found") /\
  remove_from_activity db activity_name email
    = Raise (HTTPException 404 "Activity not found").
Proof.
  intros Hkey. apply get_None in Hkey.
  unfold signup_for_activity, remove_from_activity, contains.
  rewrite Hkey. split; reflexivity.
Qed.

Lemma unknown_activity_not_found_witness :
  ~ In "Nonexistent Club" (keys activities) /\
  signup_for_activity activities "Nonexistent Club" "test@mergington.edu"
    = Raise (HTTPException 404 "Activity not found") /\
  remove_from_activity activities "Nonexistent Club" "test@mergington.edu"
    = Raise (HTTPException 404 "Activity not found").
Proof.
  assert (H : ~ In "Nonexistent Club" (keys activities)).
  { simpl. intuition discriminate. }
  split; [exact H|].
  exact (unknown_activity_not_found activities "Nonexistent Club"
           "test@mergington.edu" H).
Defined.

(** C3. When [activity_name] is a key, [email] is not among that activity's
    participants and [email] is enrolled in three activities or more, the
    signup raises [HTTPException 400] with the enrollment-limit message.  No
    assumption is made on categories: the limit is tested before them. *)
Theorem signup_enrollment_limit db activity_name email activity :
  get db activity_name = Some activity ->
  ~ In email (participants activity) ->
  3 <= enrollment_count db email ->
  signup_for_activity db activity_name email
    = Raise (HTTPException 400
        "Student is already enrolled in 3 activities. Cannot enroll in more than 3 programs.").
Proof.
  intros Hget Hnot Hcount.
  unfold signup_for_activity, subscript, contains.
  rewrite Hget. cbn [bind negb].
  apply mem_false in Hnot. rewrite Hnot.
  rewrite length_get_student_activities.
  apply Nat.leb_le in Hcount. rewrite Hcount. reflexivity.
Qed.

Lemma signup_enrollment_limit_witness :
  3 <= enrollment_count three_enrollments busy_student /\
  signup_for_activity three_enrollments "Art Club" busy_student
    = Raise (HTTPException 400
        "Student is already enrolled in 3 activities. Cannot enroll in more than 3 programs.").
Proof.
  assert (H : 3 <= enrollment_count three_enrollments busy_student).
  { vm_compute. lia. }
  split; [exact H|].
  refine (signup_enrollment_limit three_enrollments "Art Club" busy_student
            _ eq_refl _ H).
  simpl. intuition discriminate.
Defined.

(** C5. Signing up an email that is already in the activity's participant
    list raises [HTTPException 400 "Student already signed up for this
    activity"]; in particular this is what a repeated signup gets on the
    catalog a successful signup has produced. *)
Theorem signup_duplicate db activity_name email :
  (forall activity,
      get db activity_name = Some activity ->
      In email (participants activity) ->
      signup_for_activity db activity_name email
        = Raise (HTTPException 400 "Student already signed up for this activity")) /\
  (forall db' reply,
      signup_for_activity db activity_name email = Ok (db', reply) ->
      signup_for_activity db' activity_name email
        = Raise (HTTPException 400 "Student already signed up for this activity")).
Proof.
  assert (Hdup : forall d activity,
             get d activity_name = Some activity ->
             In email (participants activity) ->
             signup_for_activity d activity_name email
             = Raise (HTTPException 400 "Student already signed up for this activity")).
  { intros d activity Hget HIn.
    unfold signup_for_activity, subscript, contains.
    rewrite Hget. cbn [bind negb].
    apply mem_true in HIn. now rewrite HIn. }
  split; [apply Hdup|].
  intros db' reply Hok.
  apply signup_Ok in Hok as (activity & c & Hget & _ & _ & _ & _ & -> & _).
  apply Hdup with (activity := append_participant email activity).
  - rewrite get_update_eq, Hget. reflexivity.
  - simpl. apply in_or_app. right. now left.
Qed.

Lemma signup_duplicate_witness :
  signup_for_activity activities "Chess Club" "michael@mergington.edu"
    = Raise (HTTPException 400 "Student already signed up for this activity") /\
  signup_for_activity (run activities [Signup "Book Club" "duplicate@mergington.edu"])
      "Book Club" "duplicate@mergington.edu"
    = Raise (HTTPException 400 "Student already signed up for this activity").
Proof.
  split.
  - refine (proj1 (signup_duplicate activities "Chess Club" "michael@mergington.edu")
              _ eq_refl _).
    simpl. auto.
  - refine (proj2 (signup_duplicate activities "Book Club" "duplicate@mergington.edu")
              _ (mkReply "Signed up duplicate@mergington.edu for Book Club") _).
    vm_compute. reflexivity.
Defined.

(** ** Removal *)

Lemma update_same {V : Type} (d : dict V) k (f : V -> V) v :
  get d k = Some v -> f v = v -> update d k f = d.
Proof.
  induction d as [|[k0 v0] d IH]; simpl; [reflexivity|].
  destruct (string_dec k k0) as [->|Hne]; intros Hget Hf.
  - inversion Hget; subst. now rewrite Hf.
  - now rewrite IH.
Qed.

Lemma update_update {V : Type} (d : dict V) k (f g : V -> V) :
  update (update d k f) k g = update d k (fun v => g (f v)).
Proof.
  induction d as [|[k0 v0] d IH]; simpl; [reflexivity|].
  destruct (string_dec k k0) as [->|Hne]; simpl.
  - destruct (string_dec k0 k0); [reflexivity | congruence].
  - destruct (string_dec k k0); [congruence | now rewrite IH].
Qed.

(** A successful removal, from the conditions the handler evaluates. *)
Lemma remove_run db activity_name email activity before after :
  get db activity_name = Some activity ->
  participants activity = (before ++ email :: after)%list ->
  ~ In email before ->
  remove_from_activity db activity_name email
  = Ok (update db activity_name (fun a => with_participants a (before ++ after)%list),
        mkReply ("Removed " ++ email ++ " from " ++ activity_name)).
Proof.
  intros Hget Hsplit Hbefore.
  unfold remove_from_activity, subscript, contains.
  rewrite Hget. cbn [bind negb].
  assert (Hmem : mem email (participants activity) = true).
  { apply mem_true. rewrite Hsplit. apply in_or_app. right. now left. }
  rewrite Hmem. cbn [negb].
  rewrite Hsplit, remove_first by exact Hbefore. reflexivity.
Qed.

(** C7. For a key [activity_name] of the catalog: when [email] is not among
    the activity's participants, [remove_from_activity] raises
    [HTTPException 400 "Student is not signed up for this activity"]; when it
    is, the removal succeeds, drops the first occurrence of [email] and keeps
    everything else (the other participants in order, the other fields, the
    other activities), replies with a message naming the email and the
    activity, and, if the list had no duplicate, leaves [email] absent. *)
Theorem remove_from_activity_spec db activity_name email activity :
  get db activity_name = Some activity ->
  (~ In email (participants activity) ->
   remove_from_activity db activity_name email
     = Raise (HTTPException 400 "Student is not signed up for this activity")) /\
  (In email (participants activity) ->
   exists before after db' reply,
     participants activity = (before ++ email :: after)%list /\
     ~ In email before /\
     remove_from_activity db activity_name email = Ok (db', reply) /\
     get db' activity_name = Some (with_participants activity (before ++ after)%list) /\
     (forall other, other <> activity_name -> get db' other = get db other) /\
     keys db' = keys db /\
     message reply = "Removed " ++ email ++ " from " ++ activity_name /\
     occurs_in email (message reply) /\
     occurs_in activity_name (message reply) /\
     (NoDup (participants activity) -> ~ In email (before ++ after)%list)).
Proof.
  intros Hget. split.
  - intros Hnot. unfold remove_from_activity, subscript, contains.
    rewrite Hget. cbn [bind negb].
    apply mem_false in Hnot. now rewrite Hnot.
  - intros HIn.
    destruct (remove_In email (participants activity) HIn)
      as (before & after & Hsplit & Hbefore).
    exists before, after,
      (update db activity_name (fun a => with_participants a (before ++ after)%list)),
      (mkReply ("Removed " ++ email ++ " from " ++ activity_name)).
    split; [exact Hsplit|]. split; [exact Hbefore|].
    split; [exact (remove_run db activity_name email activity before after
                     Hget Hsplit Hbefore)|].
    split; [rewrite get_update_eq, Hget; reflexivity|].
    split; [intros other Hne; now apply get_update_ne|].
    split; [apply keys_update|].
    split; [reflexivity|].
    split; [cbn [message]; occurs|].
    split; [cbn [message]; occurs|].
    intros Hnd. rewrite Hsplit in Hnd.
    now apply NoDup_remove_2 in Hnd.
Qed.

Lemma remove_from_activity_spec_witness :
  remove_from_activity activities "Book Club" "notregistered@mergington.edu"
    = Raise (HTTPException 400 "Student is not signed up for this activity") /\
  exists before after db' reply,
    ["michael@mergington.edu"; "daniel@mergington.edu"]
      = (before ++ "michael@mergington.edu" :: after)%list /\
    ~ In "michael@mergington.edu" before /\
    remove_from_activity activities "Chess Club" "michael@mergington.edu"
      = Ok (db', reply) /\
    get db' "Chess Club"
      = Some (mkActivity "Learn strategies and compete in chess tournaments"
                "Fridays, 3:30 PM - 5:00 PM" 12 (before ++ after)%list) /\
    (forall other, other <> "Chess Club" -> get db' other = get activities other) /\
    keys db' = keys activities /\
    message reply = "Removed michael@mergington.edu from Chess Club" /\
    occurs_in "michael@mergington.edu" (message reply) /\
    occurs_in "Chess Club" (message reply) /\
    (NoDup ["michael@mergington.edu"; "daniel@mergington.edu"] ->
     ~ In "michael@mergington.edu" (before ++ after)%list).
Proof.
  split.
  - refine (proj1 (remove_from_activity_spec activities "Book Club"
                     "notregistered@mergington.edu" _ eq_refl) _).
    simpl. tauto.
  - refine (proj2 (remove_from_activity_spec activities "Chess Club"
                     "michael@mergington.edu" _ eq_refl) _).
    simpl. auto.
Defined.

(** The seed scenario: removing michael from Chess Club leaves daniel. *)
Example remove_michael :
  option_map participants
    (get (run activities [Remove "Chess Club" "michael@mergington.edu"]) "Chess Club")
  = Some ["daniel@mergington.edu"].
Proof. reflexivity. Qed.

(** ** Signup followed by removal *)

(** C8. When [signup_for_activity] succeeds for [(activity_name, email)],
    [remove_from_activity] for the same pair succeeds on the catalog it
    produced; afterwards the activity has as many participants as before the
    signup and [email] is not among them.  The catalog is in fact back to
    what it was. *)
Theorem signup_remove_roundtrip db activity_name email db1 reply1 :
  signup_for_activity db activity_name email = Ok (db1, reply1) ->
  exists db2 reply2 activity0 activity2,
    remove_from_activity db1 activity_name email = Ok (db2, reply2) /\
    get db activity_name = Some activity0 /\
    get db2 activity_name = Some activity2 /\
    length (participants activity2) = length (participants activity0) /\
    ~ In email (participants activity2) /\
    db2 = db.
Proof.
  intros Hok.
  apply signup_Ok in Hok as (activity & c & Hget & Hnot & _ & _ & _ & -> & _).
  assert (Hrm := remove_run (update db activity_name (append_participant email))
                   activity_name email (append_participant email activity)
                   (participants activity) []).
  rewrite get_update_eq, Hget in Hrm.
  specialize (Hrm eq_refl eq_refl Hnot).
  rewrite update_update, app_nil_r in Hrm.
  assert (Hback : with_participants (append_participant email activity)
                    (participants activity) = activity)
    by (destruct activity; reflexivity).
  rewrite (update_same db activity_name
             (fun v => with_participants (append_participant email v)
                         (participants activity))
             activity Hget Hback) in Hrm.
  exists db, (mkReply ("Removed " ++ email ++ " from " ++ activity_name)),
    activity, activity.
  auto 10.
Qed.

Lemma signup_remove_roundtrip_witness :
  exists db2 reply2 activity0 activity2,
    remove_from_activity
      (run activities [Signup "Book Club" "workflow@mergington.edu"])
      "Book Club" "workflow@mergington.edu" = Ok (db2, reply2) /\
    get activities "Book Club" = Some activity0 /\
    get db2 "Book Club" = Some activity2 /\
    length (participants activity2) = length (participants activity0) /\
    ~ In "workflow@mergington.edu" (participants activity2) /\
    db2 = activities.
Proof.
  refine (signup_remove_roundtrip activities "Book Club" "workflow@mergington.edu"
            _ (mkReply "Signed up workflow@mergington.edu for Book Club") _).
  vm_compute. reflexivity.
Defined.

(** ** Successful signup *)

Lemma category_clashb_true activity_name email item :
  category_clashb activity_name email item = true <->
  category_clash activity_name email item.
Proof.
  unfold category_clashb, category_clash.
  rewrite !andb_true_iff, mem_true.
  destruct (string_dec (fst item) activity_name) as [E|Hne].
  - split; [intros [[H _] _]; discriminate | tauto].
  - destruct (category_of (fst item)) as [c1|], (category_of activity_name) as [c2|];
      try destruct (string_dec c1 c2); split; intros H; intuition congruence.
Qed.

Lemma category_clash_dec activity_name email item :
  {category_clash activity_name email item} + {~ category_clash activity_name email item}.
Proof.
  destruct (category_clashb activity_name email item) eqn:E.
  - left. now apply category_clashb_true.
  - right. intros H. apply category_clashb_true in H. congruence.
Qed.

(** In a dictionary, an activity listing [email] is not the one looked up
    under [activity_name] when that one does not list it. *)
Lemma enrolled_elsewhere db activity_name email activity name a :
  NoDup (keys db) ->
  get db activity_name = Some activity ->
  ~ In email (participants activity) ->
  In (name, a) db -> In email (participants a) ->
  name <> activity_name.
Proof.
  intros Hnd Hget Hnot HIn He ->.
  apply (In_get db activity_name a Hnd) in HIn. congruence.
Qed.

Lemma In_keys {V : Type} (d : dict V) k v : In (k, v) d -> In k (keys d).
Proof. intros H. change k with (fst (k, v)). now apply in_map. Qed.

(** The activities the category loop visits without raising. *)
Lemma no_clash_passes db part activity_name email activity new_category :
  well_formed db ->
  get db activity_name = Some activity ->
  ~ In email (participants activity) ->
  category_of activity_name = Some new_category ->
  (forall item, In item part -> In item db) ->
  (forall item, In item part -> ~ category_clash activity_name email item) ->
  forall name, In name (get_student_activities part email) ->
    exists c, category_of name = Some c /\ c <> new_category.
Proof.
  intros [Hnd Hcov] Hget Hnot Hcat Hsub Hclash name Hname.
  apply In_get_student_activities in Hname as (a & HIn & He).
  assert (Hne : name <> activity_name)
    by (apply (enrolled_elsewhere db activity_name email activity name a); auto).
  destruct (category_of name) as [c|] eqn:Hc.
  - exists c. split; [reflexivity|]. intros ->.
    apply (Hclash (name, a) HIn). unfold category_clash. simpl.
    rewrite Hc, Hcat. auto.
  - exfalso. apply (Hcov name); [|exact Hc].
    apply In_keys with (v := a). auto.
Qed.

Lemma signup_accepts db activity_name email activity :
  well_formed db ->
  get db activity_name = Some activity ->
  ~ In email (participants activity) ->
  enrollment_count db email < 3 ->
  (forall item, In item db -> ~ category_clash activity_name email item) ->
  signup_for_activity db activity_name email
  = Ok (update db activity_name (append_participant email),
        mkReply ("Signed up " ++ email ++ " for " ++ activity_name)).
Proof.
  intros Hwf Hget Hnot Hcount Hclash.
  destruct (category_of activity_name) as [c|] eqn:Hcat.
  - apply signup_run with (activity := activity) (new_category := c); auto.
    apply check_categories_pass.
    apply no_clash_passes with (db := db) (activity_name := activity_name)
                               (activity := activity); auto.
  - exfalso. destruct Hwf as [_ Hcov]. apply (Hcov activity_name); [|exact Hcat].
    apply In_keys with (v := activity). now apply get_In.
Qed.

(** C1. In a well-formed catalog, for a key [activity_name] and an [email]
    that is not yet a participant of it, is enrolled in fewer than three
    activities and is in no other activity of the same category, the signup
    succeeds: [email] is appended at the end of the participant list, every
    other field and every other activity is untouched, and the reply's message
    contains the email and the activity name. *)
Theorem signup_success db activity_name email activity :
  well_formed db ->
  get db activity_name = Some activity ->
  ~ In email (participants activity) ->
  enrollment_count db email < 3 ->
  (forall item, In item db -> ~ category_clash activity_name email item) ->
  exists db' reply,
    signup_for_activity db activity_name email = Ok (db', reply) /\
    get db' activity_name
      = Some (with_participants activity (participants activity ++ [email])%list) /\
    (forall other, other <> activity_name -> get db' other = get db other) /\
    keys db' = keys db /\
    message reply = "Signed up " ++ email ++ " for " ++ activity_name /\
    occurs_in email (message reply) /\
    occurs_in activity_name (message reply).
Proof.
  intros Hwf Hget Hnot Hcount Hclash.
  exists (update db activity_name (append_participant email)),
    (mkReply ("Signed up " ++ email ++ " for " ++ activity_name)).
  split; [now apply signup_accepts with (activity := activity)|].
  split; [rewrite get_update_eq, Hget; reflexivity|].
  split; [intros other Hne; now apply get_update_ne|].
  split; [apply keys_update|].
  split; [reflexivity|].
  split; cbn [message]; occurs.
Qed.

Lemma distinct_NoDup l : distinct l = true -> NoDup l.
Proof.
  induction l as [|x l IH]; simpl; intros H; [constructor|].
  apply andb_true_iff in H as [Hx Hl].
  apply negb_true_iff, mem_false in Hx.
  constructor; auto.
Qed.

Lemma well_formedb_true db : well_formedb db = true -> well_formed db.
Proof.
  unfold well_formedb. intros H. apply andb_true_iff in H as [Hd Hc]. split.
  - now apply distinct_NoDup.
  - intros k Hk. rewrite forallb_forall in Hc. specialize (Hc k Hk).
    unfold category_of, contains in *.
    destruct (get activity_categories k); [discriminate | discriminate].
Qed.

Lemma well_formed_keys db : keys db = keys activities -> well_formed db.
Proof.
  intros Hkeys. apply well_formedb_true. unfold well_formedb. rewrite Hkeys.
  vm_compute. reflexivity.
Qed.

Lemma no_clash_true activity_name email db :
  no_clash activity_name email db = true ->
  forall item, In item db -> ~ category_clash activity_name email item.
Proof.
  unfold no_clash. rewrite forallb_forall. intros H item HIn Hclash.
  specialize (H item HIn). apply category_clashb_true in Hclash.
  rewrite Hclash in H. discriminate.
Qed.

Lemma signup_success_witness :
  exists db' reply,
    signup_for_activity activities "Book Club" "test@mergington.edu" = Ok (db', reply) /\
    get db' "Book Club"
      = Some (mkActivity "Read and discuss classic and contemporary literature"
                "Fridays, 3:00 PM - 4:30 PM" 15 ["test@mergington.edu"]) /\
    (forall other, other <> "Book Club" -> get db' other = get activities other) /\
    keys db' = keys activities /\
    message reply = "Signed up test@mergington.edu for Book Club" /\
    occurs_in "test@mergington.edu" (message reply) /\
    occurs_in "Book Club" (message reply).
Proof.
  refine (signup_success activities "Book Club" "test@mergington.edu" _
            (well_formed_keys activities eq_refl) eq_refl _ _
            (no_clash_true "Book Club" "test@mergington.edu" activities _)).
  - simpl. tauto.
  - vm_compute. lia.
  - vm_compute. reflexivity.
Defined.

(** C2. [signup_for_activity] never looks at [max_participants]: under the
    conditions of a successful signup, an activity that already has as many
    participants as its capacity, or more, still takes the new one, and its
    participant count then exceeds the capacity. *)
Theorem signup_ignores_capacity db activity_name email activity :
  well_formed db ->
  get db activity_name = Some activity ->
  ~ In email (participants activity) ->
  enrollment_count db email < 3 ->
  (forall item, In item db -> ~ category_clash activity_name email item) ->
  (max_participants activity <= Z.of_nat (length (participants activity)))%Z ->
  exists db' reply activity',
    signup_for_activity db activity_name email = Ok (db', reply) /\
    get db' activity_name = Some activity' /\
    participants activity' = (participants activity ++ [email])%list /\
    max_participants activity' = max_participants activity /\
    (max_participants activity' < Z.of_nat (length (participants activity')))%Z.
Proof.
  intros Hwf Hget Hnot Hcount Hclash Hfull.
  exists (update db activity_name (append_participant email)),
    (mkReply ("Signed up " ++ email ++ " for " ++ activity_name)),
    (append_participant email activity).
  split; [now apply signup_accepts with (activity := activity)|].
  split; [rewrite get_update_eq, Hget; reflexivity|].
  split; [reflexivity|]. split; [reflexivity|].
  simpl. rewrite length_app. simpl. lia.
Qed.

Lemma signup_ignores_capacity_witness :
  (max_participants chess_club_twelve
   <= Z.of_nat (length (participants chess_club_twelve)))%Z /\
  exists db' reply activity',
    signup_for_activity chess_club_full "Chess Club" "s11@mergington.edu"
      = Ok (db', reply) /\
    get db' "Chess Club" = Some activity' /\
    participants activity'
      = (participants chess_club_twelve ++ ["s11@mergington.edu"])%list /\
    max_participants activity' = max_participants chess_club_twelve /\
    (max_participants activity' < Z.of_nat (length (participants activity')))%Z.
Proof.
  assert (Hfull : (max_participants chess_club_twelve
                   <= Z.of_nat (length (participants chess_club_twelve)))%Z)
    by (vm_compute; discriminate).
  assert (Hwf : well_formed chess_club_full)
    by (apply well_formed_keys; vm_compute; reflexivity).
  assert (Hget : get chess_club_full "Chess Club" = Some chess_club_twelve)
    by (vm_compute; reflexivity).
  assert (Hnot : ~ In "s11@mergington.edu" (participants chess_club_twelve))
    by (apply mem_false; vm_compute; reflexivity).
  assert (Hcount : enrollment_count chess_club_full "s11@mergington.edu" < 3)
    by (vm_compute; lia).
  assert (Hclash : no_clash "Chess Club" "s11@mergington.edu" chess_club_full = true)
    by (vm_compute; reflexivity).
  split; [exact Hfull|].
  exact (signup_ignores_capacity chess_club_full "Chess Club" "s11@mergington.edu"
           chess_club_twelve Hwf Hget Hnot Hcount
           (no_clash_true "Chess Club" "s11@mergington.edu" chess_club_full Hclash)
           Hfull).
Defined.

(** ** The one-activity-per-category rule *)

(** The first binding, in iteration order, satisfying a decidable property. *)
Lemma first_clash activity_name email (db : Catalog) :
  (exists item, In item db /\ category_clash activity_name email item) ->
  exists before item after,
    db = (before ++ item :: after)%list /\
    category_clash activity_name email item /\
    forall earlier, In earlier before -> ~ category_clash activity_name email earlier.
Proof.
  induction db as [|x db IH]; intros (item & HIn & Hclash); [destruct HIn|].
  destruct (category_clash_dec activity_name email x) as [Hx|Hx].
  - exists [], x, db. split; [reflexivity|]. split; [exact Hx|]. intros e [].
  - assert (Hrest : exists item, In item db /\ category_clash activity_name email item).
    { destruct HIn as [->|HIn]; [contradiction|]. now exists item. }
    destruct (IH Hrest) as (before & y & after & -> & Hy & Hbefore).
    exists (x :: before), y, after. split; [reflexivity|]. split; [exact Hy|].
    intros e [<-|He]; [exact Hx | now apply Hbefore].
Qed.

Lemma signup_rejects_clash db activity_name email activity before other a after c :
  well_formed db ->
  get db activity_name = Some activity ->
  ~ In email (participants activity) ->
  enrollment_count db email < 3 ->
  db = (before ++ (other, a) :: after)%list ->
  category_clash activity_name email (other, a) ->
  (forall earlier, In earlier before -> ~ category_clash activity_name email earlier) ->
  category_of activity_name = Some c ->
  signup_for_activity db activity_name email
  = Raise (HTTPException 400 (category_detail other c)).
Proof.
  intros Hwf Hget Hnot Hcount Hsplit (Hne & He & Hsame) Hbefore Hcat.
  simpl in Hne, He, Hsame.
  assert (Hchk : check_categories c (get_student_activities db email)
                 = Raise (HTTPException 400 (category_detail other c))).
  { assert (Hscan : get_student_activities db email
                    = (get_student_activities before email
                       ++ other :: get_student_activities after email)%list).
    { rewrite Hsplit, get_student_activities_app. f_equal.
      rewrite !get_student_activities_filter. simpl. unfold enrolled_in at 1. simpl.
      apply mem_true in He. now rewrite He. }
    rewrite Hscan. apply check_categories_first; [|congruence].
    apply no_clash_passes with (db := db) (activity_name := activity_name)
                               (activity := activity); auto.
    intros item HIn. rewrite Hsplit. apply in_or_app. now left. }
  unfold signup_for_activity, subscript, contains.
  rewrite Hget. cbn [bind negb].
  apply mem_false in Hnot. rewrite Hnot.
  rewrite length_get_student_activities.
  apply Nat.leb_gt in Hcount. rewrite Hcount.
  unfold category_of in Hcat. rewrite Hcat. cbn [bind].
  rewrite Hchk. reflexivity.
Qed.

(** C4. In a well-formed catalog, when [activity_name] is a key, [email] is
    not a participant of it, is enrolled in fewer than three activities, and
    is enrolled in some other activity of the same category, the signup raises
    [HTTPException 400]; the detail names the first such activity in the
    iteration order of the catalog, and the category the two share. *)
Theorem signup_category_conflict db activity_name email activity :
  well_formed db ->
  get db activity_name = Some activity ->
  ~ In email (participants activity) ->
  enrollment_count db email < 3 ->
  (exists item, In item db /\ category_clash activity_name email item) ->
  exists before other a after category,
    db = (before ++ (other, a) :: after)%list /\
    category_clash activity_name email (other, a) /\
    (forall earlier, In earlier before -> ~ category_clash activity_name email earlier) /\
    category_of activity_name = Some category /\
    category_of other = Some category /\
    signup_for_activity db activity_name email
    = Raise (HTTPException 400
        ("Student is already enrolled in '" ++ other
         ++ "' which is in the same category (" ++ category
         ++ "). Cannot enroll in multiple programs of the same type.")).
Proof.
  intros Hwf Hget Hnot Hcount Hex.
  destruct (first_clash activity_name email db Hex)
    as (before & [other a] & after & Hsplit & Hclash & Hbefore).
  destruct (category_of activity_name) as [c|] eqn:Hcat.
  - exists before, other, a, after, c.
    split; [exact Hsplit|]. split; [exact Hclash|]. split; [exact Hbefore|].
    split; [reflexivity|].
    split; [destruct Hclash as (_ & _ & Hsame); simpl in Hsame; congruence|].
    now apply signup_rejects_clash
      with (activity := activity) (before := before) (a := a) (after := after).
  - exfalso. destruct Hwf as [_ Hcov]. apply (Hcov activity_name); [|exact Hcat].
    apply In_keys with (v := activity). now apply get_In.
Qed.

Lemma has_clash_true activity_name email db :
  has_clash activity_name email db = true ->
  exists item, In item db /\ category_clash activity_name email item.
Proof.
  unfold has_clash. rewrite existsb_exists. intros (item & HIn & H).
  exists item. split; [exact HIn | now apply category_clashb_true].
Qed.

Lemma signup_category_conflict_witness :
  exists before other a after category,
    two_enrollments = (before ++ (other, a) :: after)%list /\
    category_clash "Soccer Team" athlete (other, a) /\
    (forall earlier, In earlier before -> ~ category_clash "Soccer Team" athlete earlier) /\
    category_of "Soccer Team" = Some category /\
    category_of other = Some category /\
    signup_for_activity two_enrollments "Soccer Team" athlete
    = Raise (HTTPException 400
        ("Student is already enrolled in '" ++ other
         ++ "' which is in the same category (" ++ category
         ++ "). Cannot enroll in multiple programs of the same type.")).
Proof.
  assert (Hwf : well_formed two_enrollments)
    by (apply well_formed_keys; vm_compute; reflexivity).
  assert (Hget : get two_enrollments "Soccer Team" = Some soccer_team)
    by (vm_compute; reflexivity).
  assert (Hnot : ~ In athlete (participants soccer_team))
    by (apply mem_false; vm_compute; reflexivity).
  assert (Hcount : enrollment_count two_enrollments athlete < 3)
    by (vm_compute; lia).
  assert (Hclash : has_clash "Soccer Team" athlete two_enrollments = true)
    by (vm_compute; reflexivity).
  exact (signup_category_conflict two_enrollments "Soccer Team" athlete soccer_team
           Hwf Hget Hnot Hcount
           (has_clash_true "Soccer Team" athlete two_enrollments Hclash)).
Defined.

(** The scenario of the specification: Programming Class comes first in the
    catalog but is STEM; the first Sports activity of the student is reported. *)
Example soccer_after_gym :
  signup_for_activity two_enrollments "Soccer Team" athlete
  = Raise (HTTPException 400
      "Student is already enrolled in 'Gym Class' which is in the same category (Sports). Cannot enroll in multiple programs of the same type.").
Proof. vm_compute. reflexivity. Qed.

Example soccer_after_chess :
  signup_for_activity activities "Soccer Team" "michael@mergington.edu"
  = Raise (HTTPException 400
      "Student is already enrolled in 'Chess Club' which is in the same category (Sports). Cannot enroll in multiple programs of the same type.").
Proof. vm_compute. reflexivity. Qed.

(** ** Invariants of the reachable catalogs *)

(** Where a binding of a mutated dictionary comes from: it is an old
    binding, or the image of the one [get] finds under the mutated key. *)
Lemma In_update_get {V : Type} (d : dict V) k (f : V -> V) k' v' :
  In (k', v') (update d k f) ->
  In (k', v') d \/ (k' = k /\ exists v, get d k = Some v /\ v' = f v).
Proof.
  induction d as [|[k0 v0] d IH]; simpl; [tauto|].
  destruct (string_dec k k0) as [->|Hk]; simpl.
  - intros [E|HIn]; [|auto].
    inversion E; subst. right. split; [reflexivity|]. now exists v0.
  - intros [E|HIn]; [auto|].
    destruct (IH HIn) as [H|H]; auto.
Qed.

Lemma remove_Ok_split x l r :
  remove x l = Ok r ->
  exists l1 l2, l = (l1 ++ x :: l2)%list /\ ~ In x l1 /\ r = (l1 ++ l2)%list.
Proof.
  intros H.
  destruct (in_dec string_dec x l) as [HIn|Hnot].
  - destruct (remove_In x l HIn) as (l1 & l2 & -> & Hl1).
    rewrite remove_first in H by exact Hl1. inversion H; subst.
    now exists l1, l2.
  - rewrite remove_absent in H by exact Hnot. discriminate.
Qed.

Lemma keys_serve db r : keys (serve db r) = keys db.
Proof.
  unfold serve. destruct (dispatch db r) as [[db' reply]|] eqn:E; [|reflexivity].
  destruct r as [n e|n e]; simpl in E.
  - apply signup_Ok in E as (? & ? & _ & _ & _ & _ & _ & -> & _). apply keys_update.
  - apply remove_Ok in E as (? & ? & _ & _ & _ & -> & _). apply keys_update.
Qed.

Lemma keys_run requests : forall db, keys (run db requests) = keys db.
Proof.
  unfold run. induction requests as [|r requests IH]; intros db; simpl; [reflexivity|].
  rewrite IH. apply keys_serve.
Qed.

(** Every reachable catalog is a well-formed dictionary, with the keys of
    the seed in the order of the seed. *)
Lemma run_well_formed requests : well_formed (run activities requests).
Proof. apply well_formed_keys, keys_run. Qed.

(** An invariant of both handlers holds after any sequence of requests. *)
Lemma run_invariant (P : Catalog -> Prop) :
  (forall db n e db' reply,
      P db -> signup_for_activity db n e = Ok (db', reply) -> P db') ->
  (forall db n e db' reply,
      P db -> remove_from_activity db n e = Ok (db', reply) -> P db') ->
  forall requests db, P db -> P (run db requests).
Proof.
  intros Hs Hr. induction requests as [|r requests IH]; intros db H; [exact H|].
  simpl. apply IH. unfold serve.
  destruct (dispatch db r) as [[db' reply]|] eqn:E; [|exact H].
  destruct r as [n e|n e]; simpl in E; eauto.
Qed.

Lemma NoDup_append (x : string) l : NoDup l -> ~ In x l -> NoDup (l ++ [x]).
Proof.
  induction l as [|y l IH]; simpl; intros Hnd Hnot.
  - constructor; [tauto | constructor].
  - inversion Hnd as [|? ? Hy Hl]; subst. constructor.
    + intros H. apply in_app_or in H as [H|[H|[]]]; [tauto|].
      apply Hnot. now left.
    + apply IH; [exact Hl|]. tauto.
Qed.

Lemma signup_keeps_unique db activity_name email db' reply :
  participants_unique db ->
  signup_for_activity db activity_name email = Ok (db', reply) ->
  participants_unique db'.
Proof.
  intros Hu Hok name a HIn.
  apply signup_Ok in Hok as (activity & c & Hget & Hnot & _ & _ & _ & -> & _).
  apply In_update_get in HIn as [HIn|(-> & v & Hv & ->)].
  - now apply (Hu name).
  - rewrite Hget in Hv. inversion Hv; subst v. simpl.
    assert (Hnd : NoDup (participants activity))
      by (apply (Hu activity_name); now apply get_In).
    now apply NoDup_append.
Qed.

Lemma remove_keeps_unique db activity_name email db' reply :
  participants_unique db ->
  remove_from_activity db activity_name email = Ok (db', reply) ->
  participants_unique db'.
Proof.
  intros Hu Hok name a HIn.
  apply remove_Ok in Hok as (activity & ps & Hget & _ & Hrm & -> & _).
  apply In_update_get in HIn as [HIn|(-> & v & Hv & ->)].
  - now apply (Hu name).
  - simpl. apply remove_Ok_split in Hrm as (l1 & l2 & Hsplit & _ & ->).
    assert (Hnd : NoDup (participants activity))
      by (apply (Hu activity_name); now apply get_In).
    rewrite Hsplit in Hnd. now apply NoDup_remove_1 in Hnd.
Qed.

Lemma participants_uniqueb_true db :
  participants_uniqueb db = true -> participants_unique db.
Proof.
  unfold participants_uniqueb. rewrite forallb_forall. intros H name a HIn.
  apply distinct_NoDup. exact (H (name, a) HIn).
Qed.

Lemma seed_unique : participants_unique activities.
Proof. apply participants_uniqueb_true. vm_compute. reflexivity. Qed.

(** C9. No participant list of a catalog reached from the seed by signups
    and removals holds the same email twice; a successful signup and a
    successful removal each keep that property. *)
Theorem participants_unique_invariant :
  (forall db activity_name email db' reply,
      participants_unique db ->
      signup_for_activity db activity_name email = Ok (db', reply) ->
      participants_unique db') /\
  (forall db activity_name email db' reply,
      participants_unique db ->
      remove_from_activity db activity_name email = Ok (db', reply) ->
      participants_unique db') /\
  (forall requests, participants_unique (run activities requests)).
Proof.
  split; [exact signup_keeps_unique|]. split; [exact remove_keeps_unique|].
  intros requests.
  apply (run_invariant participants_unique signup_keeps_unique remove_keeps_unique).
  exact seed_unique.
Qed.

Lemma participants_unique_invariant_witness :
  participants_unique (run activities [Signup "Book Club" "test@mergington.edu"]) /\
  participants_unique (run activities [Remove "Chess Club" "michael@mergington.edu"]).
Proof.
  split.
  - refine (proj1 participants_unique_invariant
              activities "Book Club" "test@mergington.edu" _
              (mkReply "Signed up test@mergington.edu for Book Club")
              (proj2 (proj2 participants_unique_invariant) []) _).
    vm_compute. reflexivity.
  - refine (proj1 (proj2 participants_unique_invariant)
              activities "Chess Club" "michael@mergington.edu" _
              (mkReply "Removed michael@mergington.edu from Chess Club")
              (proj2 (proj2 participants_unique_invariant) []) _).
    vm_compute. reflexivity.
Defined.

(** ** The enrollment rules as an invariant *)

Lemma signup_keeps_rules db activity_name email db' reply :
  enrollment_rules db ->
  signup_for_activity db activity_name email = Ok (db', reply) ->
  enrollment_rules db'.
Proof.
  intros Hinv Hok x.
  apply signup_Ok in Hok as (activity & c & Hget & Hnot & Hcount & Hcat & Hchk & -> & _).
  destruct (Hinv x) as [Hx Hone]. split.
  - unfold enrollment_count in *.
    destruct (string_dec x email) as [->|Hne].
    + pose proof (filter_update_le (fun a => mem email (participants a))
                    db activity_name (append_participant email)) as Hle.
      simpl in Hle. lia.
    + rewrite (filter_update_same (fun a => mem x (participants a))
                 db activity_name (append_participant email)); [exact Hx|].
      intros v. simpl. now apply mem_app_other.
  - assert (Hnew : forall n a, In (n, a) db -> In x (participants a) ->
                     x = email -> category_of n <> category_of activity_name).
    { intros n a HIn Ha ->.
      assert (Hn : In n (get_student_activities db email))
        by (apply In_get_student_activities; now exists a).
      destruct (check_categories_Ok c _ Hchk n Hn) as (c' & Hc' & Hdiff).
      rewrite Hc', Hcat. congruence. }
    assert (Hold : forall v, In x (participants (append_participant email v)) ->
                     In x (participants v) \/ x = email).
    { intros v H. simpl in H. apply in_app_or in H as [H|[H|[]]]; auto. }
    intros n1 a1 n2 a2 H1 H2 Hn He1 He2.
    apply In_update_get in H1 as [H1|(-> & v1 & Hv1 & ->)];
      apply In_update_get in H2 as [H2|(-> & v2 & Hv2 & ->)].
    + now apply (Hone n1 a1 n2 a2).
    + apply Hold in He2 as [He2|He2].
      * apply (Hone n1 a1 activity_name v2); auto. now apply get_In.
      * now apply (Hnew n1 a1).
    + apply Hold in He1 as [He1|He1].
      * apply (Hone activity_name v1 n2 a2); auto. now apply get_In.
      * intros E. now apply (Hnew n2 a2 H2 He2 He1).
    + congruence.
Qed.

Lemma remove_keeps_rules db activity_name email db' reply :
  enrollment_rules db ->
  remove_from_activity db activity_name email = Ok (db', reply) ->
  enrollment_rules db'.
Proof.
  intros Hinv Hok x.
  apply remove_Ok in Hok as (activity & ps & Hget & _ & Hrm & -> & _).
  apply remove_Ok_split in Hrm as (l1 & l2 & Hsplit & _ & ->).
  assert (Hsub : In x (l1 ++ l2) -> In x (participants activity)).
  { rewrite Hsplit. intros H. apply in_app_or in H as [H|H];
      apply in_or_app; [now left | right; now right]. }
  destruct (Hinv x) as [Hx Hone]. split.
  - unfold enrollment_count in *.
    pose proof (filter_update_shrink (fun a => mem x (participants a))
                  db activity_name (fun a => with_participants a (l1 ++ l2)%list)
                  activity Hget) as Hle.
    simpl in Hle. rewrite !mem_true in Hle. specialize (Hle Hsub). lia.
  - assert (Hback : forall n a,
               In (n, a) (update db activity_name
                            (fun a => with_participants a (l1 ++ l2)%list)) ->
               In x (participants a) ->
               exists a0, In (n, a0) db /\ In x (participants a0)).
    { intros n a HIn Ha.
      apply In_update_get in HIn as [HIn|(-> & v & Hv & ->)].
      - now exists a.
      - exists activity. split; [now apply get_In | now apply Hsub]. }
    intros n1 a1 n2 a2 H1 H2 Hn He1 He2.
    destruct (Hback n1 a1 H1 He1) as (b1 & Hb1 & Hx1).
    destruct (Hback n2 a2 H2 He2) as (b2 & Hb2 & Hx2).
    now apply (Hone n1 b1 n2 b2).
Qed.

Lemma enrolled_in_roster db name a email :
  In (name, a) db -> In email (participants a) -> In email (roster db).
Proof.
  intros HIn He. unfold roster. apply in_flat_map. now exists (name, a).
Qed.

Lemma NoDup_app_disjoint (l1 l2 : list string) x :
  NoDup (l1 ++ l2) -> In x l1 -> In x l2 -> False.
Proof.
  induction l1 as [|y l1 IH]; simpl; intros Hnd H1 H2; [destruct H1|].
  inversion Hnd as [|? ? Hy Hrest]; subst.
  destruct H1 as [->|H1]; [|now apply IH].
  apply Hy. apply in_or_app. now right.
Qed.

Lemma NoDup_app_tail (l1 l2 : list string) : NoDup (l1 ++ l2) -> NoDup l2.
Proof.
  induction l1 as [|y l1 IH]; simpl; intros Hnd; [exact Hnd|].
  inversion Hnd; subst. auto.
Qed.

Lemma absent_not_enrolled db email :
  ~ In email (roster db) -> enrollment_count db email = 0.
Proof.
  unfold enrollment_count.
  induction db as [|[name a] db IH]; simpl; intros Hnot; [reflexivity|].
  assert (Ha : mem email (participants a) = false).
  { apply mem_false. intros H. apply Hnot. apply in_or_app. now left. }
  rewrite Ha. apply IH. intros H. apply Hnot. apply in_or_app. now right.
Qed.

Lemma roster_distinct_rules db :
  NoDup (roster db) -> NoDup (keys db) -> enrollment_rules db.
Proof.
  intros Hnd Hkeys email. split.
  - clear Hkeys. unfold enrollment_count.
    induction db as [|[name a] db IH]; simpl in *; [lia|].
    destruct (mem email (participants a)) eqn:Ha; simpl.
    + apply mem_true in Ha.
      assert (Hrest : ~ In email (roster db))
        by (intros H; exact (NoDup_app_disjoint _ _ email Hnd Ha H)).
      apply absent_not_enrolled in Hrest. unfold enrollment_count in Hrest.
      rewrite Hrest. lia.
    + apply NoDup_app_tail in Hnd. specialize (IH Hnd). lia.
  - induction db as [|[name a] db IH]; intros n1 a1 n2 a2 H1 H2 Hn He1 He2;
      [destruct H1|].
    simpl in Hnd, Hkeys. inversion Hkeys as [|? ? Hname Hkeys']; subst.
    destruct H1 as [E1|H1]; destruct H2 as [E2|H2].
    + congruence.
    + inversion E1; subst. exfalso.
      apply (NoDup_app_disjoint _ _ email Hnd He1).
      now apply enrolled_in_roster with (name := n2) (a := a2).
    + inversion E2; subst. exfalso.
      apply (NoDup_app_disjoint _ _ email Hnd He2).
      now apply enrolled_in_roster with (name := n1) (a := a1).
    + apply NoDup_app_tail in Hnd.
      now apply (IH Hnd Hkeys' n1 a1 n2 a2).
Qed.

Lemma seed_rules : enrollment_rules activities.
Proof.
  apply roster_distinct_rules; apply distinct_NoDup; vm_compute; reflexivity.
Qed.

(** C10. In every catalog reached from the seed by signups and removals,
    each email is a participant of at most three activities, and of at most
    one activity of each category. *)
Theorem enrollment_rules_invariant requests email :
  enrollment_count (run activities requests) email <= 3 /\
  forall n1 a1 n2 a2,
    In (n1, a1) (run activities requests) ->
    In (n2, a2) (run activities requests) ->
    n1 <> n2 ->
    In email (participants a1) -> In email (participants a2) ->
    category_of n1 <> category_of n2.
Proof.
  exact (run_invariant enrollment_rules signup_keeps_rules remove_keeps_rules
           requests activities seed_rules email).
Qed.

Lemma enrollment_rules_invariant_witness :
  enrollment_count three_enrollments busy_student <= 3 /\
  category_of "Chess Club" <> category_of "Programming Class".
Proof.
  pose proof (enrollment_rules_invariant
                [ Signup "Chess Club" busy_student;
                  Signup "Programming Class" busy_student;
                  Signup "Debate Team" busy_student ]
                busy_student) as [Hcount Hone].
  split; [exact Hcount|].
  refine (Hone "Chess Club" _ "Programming Class" _
            (get_In three_enrollments "Chess Club" _ eq_refl)
            (get_In three_enrollments "Programming Class" _ eq_refl) _ _ _).
  - discriminate.
  - apply mem_true. vm_compute. reflexivity.
  - apply mem_true. vm_compute. reflexivity.
Defined.

(** Three signups in three categories succeed; they fill the quota. *)
Example three_categories :
  get_student_activities three_enrollments busy_student
  = ["Chess Club"; "Programming Class"; "Debate Team"].
Proof. vm_compute. reflexivity. Qed.

(** Book Club and Art Club are both Arts: the second signup is refused and
    the student stays out of Art Club. *)
Example book_then_art :
  get_student_activities
    (run activities
       [ Signup "Book Club" "multitask@mergington.edu";
         Signup "Chess Club" "multitask@mergington.edu";
         Signup "Art Club" "multitask@mergington.edu" ])
    "multitask@mergington.edu"
  = ["Chess Club"; "Book Club"].
Proof. vm_compute. reflexivity. Qed.

(** ** The enrollment scan, as its callers see it *)

Lemma filter_keys_NoDup (p : string * Activity -> bool) (db : Catalog) :
  NoDup (keys db) -> NoDup (keys (filter p db)).
Proof.
  unfold keys. induction db as [|[name a] db IH]; simpl; intros Hnd; [constructor|].
  inversion Hnd as [|? ? Hname Hrest]; subst.
  destruct (p (name, a)); simpl; [|now apply IH].
  constructor; [|now apply IH].
  intros H. apply Hname. apply in_map_iff in H as (item & <- & HIn).
  apply filter_In in HIn as [HIn _]. now apply in_map.
Qed.

Lemma filter_shorter {A : Type} (p : A -> bool) (l : list A) :
  length (filter p l) <= length l.
Proof. induction l as [|x l IH]; simpl; [lia|]. destruct (p x); simpl; lia. Qed.

(** X1. [get_student_activities] returns the names of exactly the activities
    whose participant list holds the email, each as often as the catalog binds
    it, in the iteration order of the catalog. *)
Theorem get_student_activities_spec db email :
  get_student_activities db email
    = map fst (filter (fun item => mem email (participants (snd item))) db) /\
  forall name,
    In name (get_student_activities db email) <->
    exists a, In (name, a) db /\ In email (participants a).
Proof.
  split.
  - apply get_student_activities_filter.
  - intros name. apply In_get_student_activities.
Qed.

(** X2. On a dictionary (unique keys) the scan lists no activity twice, lists
    only keys of the catalog, and lists at most as many names as there are
    activities. *)
Theorem get_student_activities_keys db email :
  NoDup (keys db) ->
  NoDup (get_student_activities db email) /\
  (forall name, In name (get_student_activities db email) -> In name (keys db)) /\
  length (get_student_activities db email) <= length db.
Proof.
  intros Hnd. rewrite get_student_activities_filter. split; [|split].
  - now apply filter_keys_NoDup.
  - intros name H. apply in_map_iff in H as (item & <- & HIn).
    apply filter_In in HIn as [HIn _]. now apply in_map.
  - rewrite length_map. apply filter_shorter.
Qed.

Lemma get_student_activities_keys_witness :
  NoDup (get_student_activities three_enrollments busy_student) /\
  (forall name, In name (get_student_activities three_enrollments busy_student) ->
                In name (keys three_enrollments)) /\
  length (get_student_activities three_enrollments busy_student)
    <= length three_enrollments.
Proof.
  assert (Hnd : NoDup (keys three_enrollments))
    by (apply distinct_NoDup; vm_compute; reflexivity).
  exact (get_student_activities_keys three_enrollments busy_student Hnd).
Defined.

(** ** What the handlers can raise *)

(** X3. Whatever the catalog, [remove_from_activity] either succeeds or raises
    one of its two [HTTPException]s: the [ValueError] of [list.remove] and the
    [KeyError] of the subscript cannot happen, both being guarded by a
    membership test. *)
Theorem remove_outcomes db activity_name email :
  (exists db' reply, remove_from_activity db activity_name email = Ok (db', reply)) \/
  remove_from_activity db activity_name email
    = Raise (HTTPException 404 "Activity not found") \/
  remove_from_activity db activity_name email
    = Raise (HTTPException 400 "Student is not signed up for this activity").
Proof.
  unfold remove_from_activity, subscript, contains.
  destruct (get db activity_name) as [activity|]; cbn [bind negb]; [|auto].
  destruct (mem email (participants activity)) eqn:Hmem; cbn [negb]; [|auto].
  apply mem_true in Hmem.
  destruct (remove_In email (participants activity) Hmem) as (l1 & l2 & -> & Hl1).
  rewrite remove_first by exact Hl1. cbn [bind]. left. eauto.
Qed.

Lemma check_categories_outcomes new_category enrolled :
  (forall name, In name enrolled -> category_of name <> None) ->
  check_categories new_category enrolled = Ok tt \/
  exists other,
    In other enrolled /\
    category_of other = Some new_category /\
    check_categories new_category enrolled
      = Raise (HTTPException 400 (category_detail other new_category)).
Proof.
  induction enrolled as [|name rest IH]; intros Hcov; [now left|].
  cbn [check_categories]. unfold subscript.
  destruct (get activity_categories name) as [c|] eqn:Hc.
  - cbn [bind]. destruct (string_dec c new_category) as [->|Hne].
    + right. exists name. split; [now left|]. split; [exact Hc | reflexivity].
    + destruct IH as [H|(other & HIn & Hcat & H)].
      * intros n Hn. apply Hcov. now right.
      * now left.
      * right. exists other. split; [now right|]. now split.
  - exfalso. apply (Hcov name); [now left | exact Hc].
Qed.

(** X4. On a well-formed catalog [signup_for_activity] either succeeds or
    raises one of its four [HTTPException]s; in particular no lookup in
    [activity_categories] raises [KeyError].  A category conflict names an
    activity the student is enrolled in, of the category asked for. *)
Theorem signup_outcomes db activity_name email :
  well_formed db ->
  (exists db' reply, signup_for_activity db activity_name email = Ok (db', reply)) \/
  signup_for_activity db activity_name email
    = Raise (HTTPException 404 "Activity not found") \/
  signup_for_activity db activity_name email
    = Raise (HTTPException 400 "Student already signed up for this activity") \/
  signup_for_activity db activity_name email
    = Raise (HTTPException 400
        "Student is already enrolled in 3 activities. Cannot enroll in more than 3 programs.") \/
  exists other category,
    In other (get_student_activities db email) /\
    category_of other = Some category /\
    category_of activity_name = Some category /\
    signup_for_activity db activity_name email
      = Raise (HTTPException 400
          ("Student is already enrolled in '" ++ other
           ++ "' which is in the same category (" ++ category
           ++ "). Cannot enroll in multiple programs of the same type.")).
Proof.
  intros [Hnd Hcov].
  unfold signup_for_activity, subscript, contains.
  destruct (get db activity_name) as [activity|] eqn:Hget; cbn [bind negb]; [|auto].
  destruct (mem email (participants activity)); [auto|].
  destruct (3 <=? length (get_student_activities db email))%nat; [auto 6|].
  assert (Hkey : category_of activity_name <> None).
  { apply Hcov. apply In_keys with (v := activity). now apply get_In. }
  unfold category_of in Hkey.
  destruct (get activity_categories activity_name) as [c|] eqn:Hcat;
    [|congruence].
  cbn [bind].
  destruct (check_categories_outcomes c (get_student_activities db email))
    as [Hok|(other & HIn & Hother & Hraise)].
  - intros name Hname. apply Hcov.
    apply In_get_student_activities in Hname as (a & HIn & _).
    now apply In_keys with (v := a).
  - rewrite Hok. cbn [bind]. left. eauto.
  - rewrite Hraise. cbn [bind]. right. right. right. right.
    exists other, c. auto.
Qed.

Lemma signup_outcomes_witness :
  exists other category,
    In other (get_student_activities two_enrollments athlete) /\
    category_of other = Some category /\
    category_of "Soccer Team" = Some category /\
    signup_for_activity two_enrollments "Soccer Team" athlete
      = Raise (HTTPException 400
          ("Student is already enrolled in '" ++ other
           ++ "' which is in the same category (" ++ category
           ++ "). Cannot enroll in multiple programs of the same type.")).
Proof.
  assert (Hwf : well_formed two_enrollments)
    by (apply well_formed_keys; vm_compute; reflexivity).
  destruct (signup_outcomes two_enrollments "Soccer Team" athlete Hwf)
    as [(db' & reply & H)|[H|[H|[H|H]]]].
  - exfalso. vm_compute in H. discriminate.
  - exfalso. vm_compute in H. discriminate.
  - exfalso. vm_compute in H. discriminate.
  - exfalso. vm_compute in H. discriminate.
  - exact H.
Defined.

(** X5. The category table is not validated against the catalog: when
    [activity_name] is a key of the catalog that [activity_categories] lacks,
    a signup that passes the duplicate test and the limit test raises
    [KeyError activity_name] and not an [HTTPException]. *)
Theorem signup_uncategorised db activity_name email activity :
  get db activity_name = Some activity ->
  ~ In email (participants activity) ->
  enrollment_count db email < 3 ->
  category_of activity_name = None ->
  signup_for_activity db activity_name email = Raise (KeyError activity_name).
Proof.
  intros Hget Hnot Hcount Hcat.
  unfold signup_for_activity, subscript, contains.
  rewrite Hget. cbn [bind negb].
  apply mem_false in Hnot. rewrite Hnot.
  rewrite length_get_student_activities.
  apply Nat.leb_gt in Hcount. rewrite Hcount.
  unfold category_of in Hcat. rewrite Hcat. reflexivity.
Qed.

Lemma signup_uncategorised_witness :
  signup_for_activity robotics "Robotics Club" "test@mergington.edu"
  = Raise (KeyError "Robotics Club").
Proof.
  refine (signup_uncategorised robotics "Robotics Club" "test@mergington.edu"
            _ eq_refl _ _ eq_refl).
  - apply mem_false. vm_compute. reflexivity.
  - vm_compute. lia.
Defined.

(** ** When a signup succeeds *)

Lemma signup_Ok_no_clash db activity_name email db' reply :
  signup_for_activity db activity_name email = Ok (db', reply) ->
  forall item, In item db -> ~ category_clash activity_name email item.
Proof.
  intros Hok [name a] HIn (Hne & He & Hsame). simpl in Hne, He, Hsame.
  apply signup_Ok in Hok as (activity & c & _ & _ & _ & Hcat & Hchk & _).
  assert (Hname : In name (get_student_activities db email))
    by (apply In_get_student_activities; now exists a).
  destruct (check_categories_Ok c _ Hchk name Hname) as (c' & Hc' & Hdiff).
  congruence.
Qed.

(** X6. On a well-formed catalog a signup succeeds exactly when the activity
    exists, the email is not in its list, the student has fewer than three
    enrollments and none in another activity of the same category. *)
Theorem signup_success_iff db activity_name email :
  well_formed db ->
  (exists db' reply, signup_for_activity db activity_name email = Ok (db', reply)) <->
  (exists activity,
      get db activity_name = Some activity /\
      ~ In email (participants activity) /\
      enrollment_count db email < 3 /\
      forall item, In item db -> ~ category_clash activity_name email item).
Proof.
  intros Hwf. split.
  - intros (db' & reply & Hok).
    pose proof (signup_Ok_no_clash db activity_name email db' reply Hok) as Hclash.
    apply signup_Ok in Hok as (activity & c & Hget & Hnot & Hcount & _).
    exists activity. auto.
  - intros (activity & Hget & Hnot & Hcount & Hclash).
    rewrite (signup_accepts db activity_name email activity Hwf Hget Hnot Hcount Hclash).
    eauto.
Qed.

Lemma signup_success_iff_witness :
  (exists db' reply,
      signup_for_activity activities "Book Club" "test@mergington.edu" = Ok (db', reply)) <->
  (exists activity,
      get activities "Book Club" = Some activity /\
      ~ In "test@mergington.edu" (participants activity) /\
      enrollment_count activities "test@mergington.edu" < 3 /\
      forall item, In item activities ->
                   ~ category_clash "Book Club" "test@mergington.edu" item).
Proof.
  exact (signup_success_iff activities "Book Club" "test@mergington.edu"
           (well_formed_keys activities eq_refl)).
Defined.

(** ** What no request changes *)

Lemma static_fields_update (db : Catalog) k f name :
  (forall a, static_fields (f a) = static_fields a) ->
  option_map static_fields (get (update db k f) name)
  = option_map static_fields (get db name).
Proof.
  intros Hf. destruct (string_dec name k) as [->|Hne].
  - rewrite get_update_eq. destruct (get db k); simpl; [now rewrite Hf | reflexivity].
  - now rewrite get_update_ne.
Qed.

Lemma static_fields_serve db r name :
  option_map static_fields (get (serve db r) name)
  = option_map static_fields (get db name).
Proof.
  unfold serve. destruct (dispatch db r) as [[db' reply]|] eqn:E; [|reflexivity].
  destruct r as [n e|n e]; simpl in E.
  - apply signup_Ok in E as (? & ? & _ & _ & _ & _ & _ & -> & _).
    now apply static_fields_update.
  - apply remove_Ok in E as (? & ? & _ & _ & _ & -> & _).
    now apply static_fields_update.
Qed.

Lemma requests_keep_shape_aux db requests :
  keys (run db requests) = keys db /\
  forall name,
    option_map static_fields (get (run db requests) name)
    = option_map static_fields (get db name).
Proof.
  split; [apply keys_run|].
  intros name. unfold run. revert db.
  induction requests as [|r requests IH]; intros db; simpl; [reflexivity|].
  rewrite IH. apply static_fields_serve.
Qed.

(** X7. No sequence of signups and removals adds, deletes, renames or reorders
    an activity, and none changes a description, a schedule or a capacity:
    only participant lists move. *)
Theorem requests_keep_shape db requests :
  keys (run db requests) = keys db /\
  forall name activity,
    get db name = Some activity ->
    exists activity',
      get (run db requests) name = Some activity' /\
      description activity' = description activity /\
      schedule activity' = schedule activity /\
      max_participants activity' = max_participants activity.
Proof.
  destruct (requests_keep_shape_aux db requests) as [Hkeys Hstatic].
  split; [exact Hkeys|].
  intros name activity Hget. specialize (Hstatic name). rewrite Hget in Hstatic.
  destruct (get (run db requests) name) as [activity'|]; [|discriminate].
  simpl in Hstatic. inversion Hstatic. now exists activity'.
Qed.

Lemma requests_keep_shape_witness :
  exists activity',
    get chess_club_full "Chess Club" = Some activity' /\
    description activity' = "Learn strategies and compete in chess tournaments" /\
    schedule activity' = "Fridays, 3:30 PM - 5:00 PM" /\
    max_participants activity' = 12%Z.
Proof.
  exact (proj2 (requests_keep_shape activities
                  (map (Signup "Chess Club")
                     [ "s01@mergington.edu"; "s02@mergington.edu"; "s03@mergington.edu";
                       "s04@mergington.edu"; "s05@mergington.edu"; "s06@mergington.edu";
                       "s07@mergington.edu"; "s08@mergington.edu"; "s09@mergington.edu";
                       "s10@mergington.edu" ]))
           "Chess Club" _ eq_refl).
Defined.

(** ** Effect of a request on the students' enrollments *)

Section CountAtKey.

Context {V : Type} (p : V -> bool).
Implicit Types (d : dict V) (k : string) (v : V) (f : V -> V).

Lemma scan_update_same d k f v :
  get d k = Some v -> p (f v) = p v ->
  map fst (filter (fun item => p (snd item)) (update d k f))
  = map fst (filter (fun item => p (snd item)) d).
Proof.
  induction d as [|[k0 v0] d IH]; simpl; [reflexivity|].
  destruct (string_dec k k0) as [->|Hk]; simpl; intros Hget Hp.
  - inversion Hget; subst v0. rewrite Hp. destruct (p v); reflexivity.
  - destruct (p v0); simpl; now rewrite IH.
Qed.

Lemma filter_update_grow d k f v :
  get d k = Some v -> p v = false -> p (f v) = true ->
  length (filter (fun item => p (snd item)) (update d k f))
  = S (length (filter (fun item => p (snd item)) d)).
Proof.
  induction d as [|[k0 v0] d IH]; simpl; [discriminate|].
  destruct (string_dec k k0) as [->|Hk]; simpl; intros Hget Hv Hfv.
  - inversion Hget; subst v0. now rewrite Hv, Hfv.
  - destruct (p v0); simpl; now rewrite IH.
Qed.

Lemma filter_update_drop d k f v :
  get d k = Some v -> p v = true -> p (f v) = false ->
  S (length (filter (fun item => p (snd item)) (update d k f)))
  = length (filter (fun item => p (snd item)) d).
Proof.
  induction d as [|[k0 v0] d IH]; simpl; [discriminate|].
  destruct (string_dec k k0) as [->|Hk]; simpl; intros Hget Hv Hfv.
  - inversion Hget; subst v0. now rewrite Hv, Hfv.
  - destruct (p v0); simpl; now rewrite IH.
Qed.

End CountAtKey.

Lemma In_update_fwd {V : Type} (d : dict V) k (f : V -> V) k' v' :
  In (k', v') d ->
  In (k', v') (update d k f) \/ (k' = k /\ In (k', f v') (update d k f)).
Proof.
  induction d as [|[k0 v0] d IH]; simpl; [tauto|].
  destruct (string_dec k k0) as [->|Hk]; simpl.
  - intros [E|HIn]; [|auto].
    inversion E; subst. right. auto.
  - intros [E|HIn]; [auto|].
    destruct (IH HIn) as [H|[H1 H2]]; auto.
Qed.

(** X8. A successful signup adds exactly one enrollment, that of the email
    in the activity asked for, and leaves the enrollments of every other
    student as they were. *)
Theorem signup_enrollments db activity_name email db' reply :
  signup_for_activity db activity_name email = Ok (db', reply) ->
  (forall other, other <> email ->
     get_student_activities db' other = get_student_activities db other) /\
  enrollment_count db' email = S (enrollment_count db email) /\
  (forall name,
     In name (get_student_activities db' email) <->
     name = activity_name \/ In name (get_student_activities db email)).
Proof.
  intros Hok.
  apply signup_Ok in Hok as (activity & c & Hget & Hnot & _ & _ & _ & -> & _).
  split; [|split].
  - intros other Hne. rewrite !get_student_activities_filter.
    apply (scan_update_same (fun a => mem other (participants a))
             db activity_name (append_participant email) activity Hget).
    simpl. now apply mem_app_other.
  - unfold enrollment_count.
    apply (filter_update_grow (fun a => mem email (participants a))
             db activity_name (append_participant email) activity Hget).
    + now apply mem_false.
    + apply mem_true. simpl. apply in_or_app. right. now left.
  - intros name. rewrite !In_get_student_activities. split.
    + intros (a & HIn & He).
      apply In_update_get in HIn as [HIn|(-> & _)]; [right; now exists a | now left].
    + intros [->|(a & HIn & He)].
      * exists (append_participant email activity). split.
        -- apply get_In. rewrite get_update_eq, Hget. reflexivity.
        -- simpl. apply in_or_app. right. now left.
      * destruct (In_update_fwd db activity_name (append_participant email) name a HIn)
          as [H|[_ H]].
        -- now exists a.
        -- exists (append_participant email a). split; [exact H|].
           simpl. apply in_or_app. now left.
Qed.

Lemma signup_enrollments_witness :
  (forall other, other <> "test@mergington.edu" ->
     get_student_activities
       (run activities [Signup "Book Club" "test@mergington.edu"]) other
     = get_student_activities activities other) /\
  enrollment_count (run activities [Signup "Book Club" "test@mergington.edu"])
      "test@mergington.edu"
    = S (enrollment_count activities "test@mergington.edu") /\
  (forall name,
     In name (get_student_activities
                (run activities [Signup "Book Club" "test@mergington.edu"])
                "test@mergington.edu") <->
     name = "Book Club" \/
     In name (get_student_activities activities "test@mergington.edu")).
Proof.
  refine (signup_enrollments activities "Book Club" "test@mergington.edu" _
            (mkReply "Signed up test@mergington.edu for Book Club") _).
  vm_compute. reflexivity.
Defined.

(** X9. A successful removal leaves the enrollments of every other student
    as they were and never raises the student's own count; when the
    activity's list held the email once, the count drops by exactly one and
    the activity leaves the student's enrollments. *)
Theorem remove_enrollments db activity_name email db' reply :
  remove_from_activity db activity_name email = Ok (db', reply) ->
  (forall other, other <> email ->
     get_student_activities db' other = get_student_activities db other) /\
  enrollment_count db' email <= enrollment_count db email /\
  (forall activity,
     get db activity_name = Some activity -> NoDup (participants activity) ->
     S (enrollment_count db' email) = enrollment_count db email).
Proof.
  intros Hok.
  apply remove_Ok in Hok as (activity & ps & Hget & _ & Hrm & -> & _).
  apply remove_Ok_split in Hrm as (l1 & l2 & Hsplit & Hl1 & ->).
  split; [|split].
  - intros other Hne. rewrite !get_student_activities_filter.
    apply (scan_update_same (fun a => mem other (participants a))
             db activity_name _ activity Hget).
    simpl. rewrite Hsplit.
    destruct (mem other (l1 ++ email :: l2)) eqn:E.
    + apply mem_true. apply mem_true in E.
      apply in_app_or in E as [E|[E|E]]; [|congruence|]; apply in_or_app; auto.
    + apply mem_false. apply mem_false in E. intros H. apply E.
      apply in_app_or in H as [H|H]; apply in_or_app; [now left | right; now right].
  - unfold enrollment_count.
    apply (filter_update_shrink (fun a => mem email (participants a))
             db activity_name _ activity Hget).
    simpl. intros _. apply mem_true. rewrite Hsplit.
    apply in_or_app. right. now left.
  - intros activity0 Hget0 Hnd. rewrite Hget in Hget0. inversion Hget0; subst activity0.
    unfold enrollment_count.
    apply (filter_update_drop (fun a => mem email (participants a))
             db activity_name _ activity Hget).
    + apply mem_true. rewrite Hsplit. apply in_or_app. right. now left.
    + simpl. apply mem_false. rewrite Hsplit in Hnd.
      now apply NoDup_remove_2 in Hnd.
Qed.

Lemma remove_enrollments_witness :
  (forall other, other <> "michael@mergington.edu" ->
     get_student_activities
       (run activities [Remove "Chess Club" "michael@mergington.edu"]) other
     = get_student_activities activities other) /\
  enrollment_count (run activities [Remove "Chess Club" "michael@mergington.edu"])
      "michael@mergington.edu"
    <= enrollment_count activities "michael@mergington.edu" /\
  S (enrollment_count (run activities [Remove "Chess Club" "michael@mergington.edu"])
       "michael@mergington.edu")
    = enrollment_count activities "michael@mergington.edu".
Proof.
  assert (Hok : remove_from_activity activities "Chess Club" "michael@mergington.edu"
                = Ok (run activities [Remove "Chess Club" "michael@mergington.edu"],
                      mkReply "Removed michael@mergington.edu from Chess Club"))
    by (vm_compute; reflexivity).
  destruct (remove_enrollments activities "Chess Club" "michael@mergington.edu" _ _ Hok)
    as (Hother & Hle & Hdrop).
  split; [exact Hother|]. split; [exact Hle|].
  refine (Hdrop _ eq_refl _).
  apply distinct_NoDup. vm_compute. reflexivity.
Defined.

(** X10. When the activity's participant list has no duplicate, a removal
    that has just succeeded cannot be repeated: the second attempt raises
    [HTTPException 400 "Student is not signed up for this activity"]. *)
Theorem remove_twice db activity_name email db' reply :
  participants_unique db ->
  remove_from_activity db activity_name email = Ok (db', reply) ->
  remove_from_activity db' activity_name email
  = Raise (HTTPException 400 "Student is not signed up for this activity").
Proof.
  intros Hu Hok.
  apply remove_Ok in Hok as (activity & ps & Hget & _ & Hrm & -> & _).
  apply remove_Ok_split in Hrm as (l1 & l2 & Hsplit & _ & ->).
  assert (Hnd : NoDup (participants activity))
    by (apply (Hu activity_name); now apply get_In).
  rewrite Hsplit in Hnd. apply NoDup_remove_2 in Hnd.
  unfold remove_from_activity, subscript, contains.
  rewrite get_update_eq, Hget. cbn [option_map bind negb participants with_participants].
  apply mem_false in Hnd. rewrite Hnd. reflexivity.
Qed.

Lemma remove_twice_witness :
  remove_from_activity
    (run activities [Remove "Chess Club" "michael@mergington.edu"])
    "Chess Club" "michael@mergington.edu"
  = Raise (HTTPException 400 "Student is not signed up for this activity").
Proof.
  refine (remove_twice activities "Chess Club" "michael@mergington.edu" _
            (mkReply "Removed michael@mergington.edu from Chess Club")
            seed_unique _).
  vm_compute. reflexivity.
Defined.

(** ** Removal followed by signup *)

Lemma well_formed_update db k f : well_formed db -> well_formed (update db k f).
Proof. unfold well_formed. now rewrite keys_update. Qed.

(** X11. On a well-formed catalog that satisfies the uniqueness and
    enrollment invariants (as every reachable catalog does), a student who has
    just been removed from an activity can sign up for it again at once; the
    student then stands at the end of the participant list, and nothing else
    differs from the catalog before the removal. *)
Theorem remove_signup_roundtrip db activity_name email db1 reply1 :
  well_formed db ->
  participants_unique db ->
  enrollment_rules db ->
  remove_from_activity db activity_name email = Ok (db1, reply1) ->
  exists db2 reply2 activity before after,
    get db activity_name = Some activity /\
    participants activity = (before ++ email :: after)%list /\
    signup_for_activity db1 activity_name email = Ok (db2, reply2) /\
    get db2 activity_name
      = Some (with_participants activity ((before ++ after) ++ [email])%list) /\
    (forall other, other <> activity_name -> get db2 other = get db other) /\
    keys db2 = keys db.
Proof.
  intros Hwf Hu Hrules Hok.
  apply remove_Ok in Hok as (activity & ps & Hget & HIn & Hrm & -> & _).
  apply remove_Ok_split in Hrm as (l1 & l2 & Hsplit & _ & ->).
  set (g := fun a : Activity => with_participants a (l1 ++ l2)%list).
  set (db1 := update db activity_name g).
  assert (Hnd : NoDup (participants activity))
    by (apply (Hu activity_name); now apply get_In).
  assert (Hgone : ~ In email (l1 ++ l2))
    by (rewrite Hsplit in Hnd; now apply NoDup_remove_2 in Hnd).
  assert (Hget1 : get db1 activity_name = Some (g activity))
    by (unfold db1; rewrite get_update_eq, Hget; reflexivity).
  assert (Hcount : enrollment_count db1 email < 3).
  { destruct (Hrules email) as [Hle _].
    assert (Hdrop : S (enrollment_count db1 email) = enrollment_count db email).
    { unfold enrollment_count, db1.
      apply (filter_update_drop (fun a => mem email (participants a))
               db activity_name g activity Hget).
      - now apply mem_true.
      - apply mem_false. exact Hgone. }
    lia. }
  assert (Hclash : forall item, In item db1 -> ~ category_clash activity_name email item).
  { intros [name a] Hitem (Hne & He & Hsame). simpl in Hne, He, Hsame.
    apply In_update_get in Hitem as [Hitem|[E _]]; [|contradiction].
    destruct (Hrules email) as [_ Hone].
    apply (Hone name a activity_name activity); auto. now apply get_In. }
  exists (update db1 activity_name (append_participant email)),
    (mkReply ("Signed up " ++ email ++ " for " ++ activity_name)),
    activity, l1, l2.
  split; [exact Hget|]. split; [exact Hsplit|].
  split.
  { apply signup_accepts with (activity := g activity); auto.
    now apply well_formed_update. }
  split; [rewrite get_update_eq, Hget1; reflexivity|].
  split.
  { intros other Hne. unfold db1. now rewrite !get_update_ne. }
  unfold db1. now rewrite !keys_update.
Qed.

Lemma remove_signup_roundtrip_witness :
  exists db2 reply2 activity before after,
    get activities "Chess Club" = Some activity /\
    participants activity = (before ++ "michael@mergington.edu" :: after)%list /\
    signup_for_activity
      (run activities [Remove "Chess Club" "michael@mergington.edu"])
      "Chess Club" "michael@mergington.edu" = Ok (db2, reply2) /\
    get db2 "Chess Club"
      = Some (with_participants activity
                ((before ++ after) ++ ["michael@mergington.edu"])%list) /\
    (forall other, other <> "Chess Club" -> get db2 other = get activities other) /\
    keys db2 = keys activities.
Proof.
  refine (remove_signup_roundtrip activities "Chess Club" "michael@mergington.edu" _
            (mkReply "Removed michael@mergington.edu from Chess Club")
            (well_formed_keys activities eq_refl) seed_unique seed_rules _).
  vm_compute. reflexivity.
Defined.

(** The removed student comes back last. *)
Example michael_comes_back :
  option_map participants
    (get (run activities [ Remove "Chess Club" "michael@mergington.edu";
                           Signup "Chess Club" "michael@mergington.edu" ])
         "Chess Club")
  = Some ["daniel@mergington.edu"; "michael@mergington.edu"].
Proof. vm_compute. reflexivity. Qed.

(** ** The test fixture *)

Lemma original_activities_same db : original_activities db = db.
Proof.
  unfold original_activities.
  induction db as [|[name a] db IH]; simpl; [reflexivity|].
  rewrite IH. now destruct a.
Qed.

Lemma keys_restore_activities original :
  forall db, keys (restore_activities original db) = keys db.
Proof.
  unfold restore_activities.
  induction original as [|[name o] original IH]; intros db; simpl; [reflexivity|].
  rewrite IH. destruct (contains db name); [apply keys_update | reflexivity].
Qed.

Lemma get_restore_activities original :
  NoDup (keys original) ->
  forall db k,
    get (restore_activities original db) k
    = match get db k with
      | Some v =>
          Some match get original k with
               | Some o => with_participants v (participants o)
               | None => v
               end
      | None => None
      end.
Proof.
  unfold restore_activities.
  induction original as [|[name o] original IH]; intros Hnd db k; simpl.
  - now destruct (get db k).
  - inversion Hnd as [|? ? Hname Hrest]; subst.
    rewrite (IH Hrest). clear IH.
    destruct (string_dec k name) as [->|Hne].
    + assert (Hfresh : get original name = None) by now apply get_None.
      rewrite Hfresh. unfold contains.
      destruct (get db name) as [v|] eqn:Hv.
      * rewrite get_update_eq, Hv. reflexivity.
      * rewrite Hv. reflexivity.
    + destruct (contains db name); [rewrite get_update_ne by exact Hne|];
        reflexivity.
Qed.

(** Two dictionaries with the same keys in the same order and the same
    value under each key are equal. *)
Lemma dict_ext {V : Type} (d1 d2 : dict V) :
  keys d1 = keys d2 -> NoDup (keys d1) ->
  (forall k, In k (keys d1) -> get d1 k = get d2 k) ->
  d1 = d2.
Proof.
  revert d2. induction d1 as [|[k1 v1] d1 IH]; intros [|[k2 v2] d2]; simpl;
    try discriminate; [reflexivity|].
  intros Hkeys Hnd Hget. inversion Hkeys as [[Hk Hrest]]. subst k2.
  inversion Hnd as [|? ? Hfresh Hnd']; subst.
  pose proof (Hget k1 (or_introl eq_refl)) as Hhead.
  destruct (string_dec k1 k1) as [_|Hne]; [|congruence].
  inversion Hhead; subst v2. f_equal.
  apply IH; [exact Hrest | exact Hnd' |].
  intros k Hk. specialize (Hget k (or_intror Hk)).
  destruct (string_dec k k1) as [->|Hne]; [contradiction | exact Hget].
Qed.

(** X12. The fixture [reset_activities] gives back the catalog it started
    from after any sequence of signups and removals: it restores only the
    participant lists, and nothing else has moved. *)
Theorem reset_activities_restores db test_requests :
  NoDup (keys db) ->
  reset_activities db test_requests = db.
Proof.
  intros Hnd. unfold reset_activities. cbv zeta.
  rewrite original_activities_same.
  destruct (requests_keep_shape_aux db test_requests) as [Hkeys Hstatic].
  apply dict_ext.
  - now rewrite keys_restore_activities.
  - now rewrite keys_restore_activities, Hkeys.
  - intros k Hk. rewrite get_restore_activities by exact Hnd.
    specialize (Hstatic k).
    destruct (get (run db test_requests) k) as [v|] eqn:Hv.
    + destruct (get db k) as [o|] eqn:Ho; [|discriminate].
      simpl in Hstatic. inversion Hstatic as [[Hd Hs Hm]].
      destruct v, o; simpl in *. now subst.
    + rewrite keys_restore_activities, Hkeys in Hk.
      apply get_None in Hv. rewrite Hkeys in Hv. contradiction.
Qed.

Lemma reset_activities_restores_witness :
  reset_activities activities
    [ Signup "Book Club" "test@mergington.edu";
      Remove "Chess Club" "michael@mergington.edu";
      Signup "Art Club" "test@mergington.edu" ]
  = activities.
Proof.
  refine (reset_activities_restores activities _ _).
  apply distinct_NoDup. vm_compute. reflexivity.
Defined.

(** ** Students do not interfere *)

Lemma remove_present x l : In x l -> exists r, remove x l = Ok r.
Proof.
  intros H. destruct (remove_In x l H) as (l1 & l2 & -> & Hl1).
  rewrite remove_first by exact Hl1. eauto.
Qed.

(** A mutation of one activity that keeps or drops [x] alike does not change
    what a request made for [x] returns. *)
Lemma dispatch_outcome_update db k g v r :
  get db k = Some v ->
  mem (requester r) (participants (g v)) = mem (requester r) (participants v) ->
  outcome (dispatch (update db k g) r) = outcome (dispatch db r).
Proof.
  intros Hget Hmem.
  assert (Hlook : forall name,
             get (update db k g) name = get db name \/
             (name = k /\ get (update db k g) name = Some (g v)
              /\ get db name = Some v)).
  { intros name. destruct (string_dec name k) as [->|Hne].
    - right. rewrite get_update_eq, Hget. auto.
    - left. now apply get_update_ne. }
  assert (Hscan : get_student_activities (update db k g) (requester r)
                  = get_student_activities db (requester r)).
  { rewrite !get_student_activities_filter.
    exact (scan_update_same (fun a => mem (requester r) (participants a))
             db k g v Hget Hmem). }
  destruct r as [name x|name x]; simpl in Hmem, Hscan |- *.
  - unfold signup_for_activity, subscript, contains. rewrite Hscan.
    destruct (Hlook name) as [->|(-> & -> & ->)].
    + destruct (get db name) as [a|]; cbn [bind negb]; [|reflexivity].
      destruct (mem x (participants a)); [reflexivity|].
      destruct (3 <=? length (get_student_activities db x))%nat; [reflexivity|].
      destruct (get activity_categories name); cbn [bind]; [|reflexivity].
      destruct (check_categories s (get_student_activities db x)) as [[]|];
        reflexivity.
    + cbn [bind negb]. rewrite Hmem.
      destruct (mem x (participants v)); [reflexivity|].
      destruct (3 <=? length (get_student_activities db x))%nat; [reflexivity|].
      destruct (get activity_categories k); cbn [bind]; [|reflexivity].
      destruct (check_categories s (get_student_activities db x)) as [[]|];
        reflexivity.
  - unfold remove_from_activity, subscript, contains.
    destruct (Hlook name) as [->|(-> & -> & ->)].
    + destruct (get db name) as [a|]; cbn [bind negb]; [|reflexivity].
      destruct (mem x (participants a)); cbn [negb]; [|reflexivity].
      destruct (remove x (participants a)); reflexivity.
    + cbn [bind negb]. rewrite Hmem.
      destruct (mem x (participants v)) eqn:Hv; cbn [negb]; [|reflexivity].
      assert (Hgv : mem x (participants (g v)) = true) by congruence.
      apply mem_true in Hv, Hgv.
      destruct (remove_present x _ Hv) as (r1 & ->).
      destruct (remove_present x _ Hgv) as (r2 & ->).
      reflexivity.
Qed.

(** X13. A request made for one student neither enables nor blocks a request
    made for another: the reply or the exception the second request gets is
    the same whether or not the first one was served before it. *)
Theorem other_student_no_effect db r1 r2 :
  requester r1 <> requester r2 ->
  outcome (dispatch (serve db r1) r2) = outcome (dispatch db r2).
Proof.
  intros Hne. unfold serve.
  destruct (dispatch db r1) as [[db1 reply1]|] eqn:E; [|reflexivity].
  destruct r1 as [name e|name e]; simpl in E, Hne.
  - apply signup_Ok in E as (activity & c & Hget & _ & _ & _ & _ & -> & _).
    apply dispatch_outcome_update with (v := activity); [exact Hget|].
    simpl. apply mem_app_other. congruence.
  - apply remove_Ok in E as (activity & ps & Hget & _ & Hrm & -> & _).
    apply remove_Ok_split in Hrm as (l1 & l2 & Hsplit & _ & ->).
    apply dispatch_outcome_update with (v := activity); [exact Hget|].
    simpl. rewrite Hsplit.
    destruct (mem (requester r2) (l1 ++ e :: l2)) eqn:M.
    + apply mem_true. apply mem_true in M.
      apply in_app_or in M as [M|[M|M]]; [|congruence|]; apply in_or_app; auto.
    + apply mem_false. apply mem_false in M. intros H. apply M.
      apply in_app_or in H as [H|H]; apply in_or_app; [now left | right; now right].
Qed.

Lemma other_student_no_effect_witness :
  outcome (dispatch (serve chess_club_full (Signup "Chess Club" "s11@mergington.edu"))
             (Signup "Chess Club" "s12@mergington.edu"))
  = outcome (dispatch chess_club_full (Signup "Chess Club" "s12@mergington.edu")).
Proof.
  refine (other_student_no_effect chess_club_full
            (Signup "Chess Club" "s11@mergington.edu")
            (Signup "Chess Club" "s12@mergington.edu") _).
  simpl. discriminate.
Defined.

(** ** Order of signups *)

(** X14. The participant list records the order of signups: after two
    successful signups for the same activity, the list is the old one followed
    by the first email and then the second. *)
Theorem signup_order db activity_name email1 email2 activity db1 reply1 db2 reply2 :
  get db activity_name = Some activity ->
  signup_for_activity db activity_name email1 = Ok (db1, reply1) ->
  signup_for_activity db1 activity_name email2 = Ok (db2, reply2) ->
  option_map participants (get db2 activity_name)
  = Some (participants activity ++ [email1; email2])%list.
Proof.
  intros Hget H1 H2.
  apply signup_Ok in H1 as (a1 & c1 & Hget1 & _ & _ & _ & _ & -> & _).
  apply signup_Ok in H2 as (a2 & c2 & _ & _ & _ & _ & _ & -> & _).
  rewrite !get_update_eq, Hget. simpl. now rewrite <- app_assoc.
Qed.

Lemma signup_order_witness :
  option_map participants
    (get (run activities [ Signup "Book Club" "first@mergington.edu";
                           Signup "Book Club" "second@mergington.edu" ])
         "Book Club")
  = Some ([] ++ ["first@mergington.edu"; "second@mergington.edu"])%list.
Proof.
  refine (signup_order activities "Book Club" "first@mergington.edu"
            "second@mergington.edu" _
            (run activities [Signup "Book Club" "first@mergington.edu"])
            (mkReply "Signed up first@mergington.edu for Book Club")
            _ (mkReply "Signed up second@mergington.edu for Book Club")
            eq_refl _ _); vm_compute; reflexivity.
Defined.

Lemma update_comm {V : Type} (d : dict V) k1 k2 (f g : V -> V) :
  k1 <> k2 -> update (update d k1 f) k2 g = update (update d k2 g) k1 f.
Proof.
  intros Hne. induction d as [|[k v] d IH]; simpl; [reflexivity|].
  destruct (string_dec k1 k) as [E1|N1], (string_dec k2 k) as [E2|N2]; simpl.
  - congruence.
  - destruct (string_dec k2 k), (string_dec k1 k); congruence.
  - destruct (string_dec k2 k), (string_dec k1 k); congruence.
  - destruct (string_dec k2 k), (string_dec k1 k); congruence.
Qed.

(** X15. Signups of two different students for two different activities
    commute: if they succeed in one order they succeed in the other, with the
    same replies and the same final catalog. *)
Theorem signups_commute db name1 email1 name2 email2 db1 reply1 db12 reply2 :
  name1 <> name2 ->
  email1 <> email2 ->
  signup_for_activity db name1 email1 = Ok (db1, reply1) ->
  signup_for_activity db1 name2 email2 = Ok (db12, reply2) ->
  exists db2,
    signup_for_activity db name2 email2 = Ok (db2, reply2) /\
    signup_for_activity db2 name1 email1 = Ok (db12, reply1).
Proof.
  intros Hname Hemail H1 H2.
  apply signup_Ok in H1
    as (a1 & c1 & Hget1 & Hnot1 & Hcount1 & Hcat1 & Hchk1 & -> & ->).
  apply signup_Ok in H2
    as (a2 & c2 & Hget2 & Hnot2 & Hcount2 & Hcat2 & Hchk2 & -> & ->).
  assert (Hkeep1 : forall a, mem email2 (participants (append_participant email1 a))
                             = mem email2 (participants a))
    by (intros a; simpl; apply mem_app_other; congruence).
  assert (Hkeep2 : forall a, mem email1 (participants (append_participant email2 a))
                             = mem email1 (participants a))
    by (intros a; simpl; now apply mem_app_other).
  rewrite get_update_ne in Hget2 by congruence.
  assert (Hscan2 : get_student_activities (update db name1 (append_participant email1)) email2
                   = get_student_activities db email2).
  { rewrite !get_student_activities_filter.
    exact (scan_update_same (fun a => mem email2 (participants a))
             db name1 _ a1 Hget1 (Hkeep1 a1)). }
  assert (Hscan1 : get_student_activities (update db name2 (append_participant email2)) email1
                   = get_student_activities db email1).
  { rewrite !get_student_activities_filter.
    exact (scan_update_same (fun a => mem email1 (participants a))
             db name2 _ a2 Hget2 (Hkeep2 a2)). }
  exists (update db name2 (append_participant email2)). split.
  - apply signup_run with (activity := a2) (new_category := c2); auto.
    + rewrite <- length_get_student_activities, <- Hscan2,
        length_get_student_activities. exact Hcount2.
    + now rewrite <- Hscan2.
  - rewrite (update_comm db name1 name2) by exact Hname.
    apply signup_run with (activity := a1) (new_category := c1); auto.
    + now rewrite get_update_ne.
    + rewrite <- length_get_student_activities, Hscan1,
        length_get_student_activities. exact Hcount1.
    + now rewrite Hscan1.
Qed.

Lemma signups_commute_witness :
  exists db2,
    signup_for_activity activities "Art Club" "second@mergington.edu"
      = Ok (db2, mkReply "Signed up second@mergington.edu for Art Club") /\
    signup_for_activity db2 "Book Club" "first@mergington.edu"
      = Ok (run activities [ Signup "Book Club" "first@mergington.edu";
                             Signup "Art Club" "second@mergington.edu" ],
            mkReply "Signed up first@mergington.edu for Book Club").
Proof.
  refine (signups_commute activities "Book Club" "first@mergington.edu"
            "Art Club" "second@mergington.edu"
            (run activities [Signup "Book Club" "first@mergington.edu"])
            _ _ _ _ _ _ _).
  - discriminate.
  - discriminate.
  - vm_compute. reflexivity.
  - vm_compute. reflexivity.
Defined.

(** ** No unexpected exception on the running service *)

Lemma signup_client_error db activity_name email e :
  well_formed db ->
  signup_for_activity db activity_name email = Raise e ->
  client_error e = true.
Proof.
  intros [Hnd Hcov]. unfold signup_for_activity, subscript, contains.
  destruct (get db activity_name) as [activity|] eqn:Hget; cbn [bind negb];
    [|intros H; inversion H; reflexivity].
  destruct (mem email (participants activity)); [intros H; inversion H; reflexivity|].
  destruct (3 <=? length (get_student_activities db email))%nat;
    [intros H; inversion H; reflexivity|].
  assert (Hkey : category_of activity_name <> None).
  { apply Hcov. apply In_keys with (v := activity). now apply get_In. }
  unfold category_of in Hkey.
  destruct (get activity_categories activity_name) as [c|]; [|congruence].
  cbn [bind].
  destruct (check_categories_outcomes c (get_student_activities db email))
    as [Hok|(other & _ & _ & Hraise)].
  - intros name Hname. apply Hcov.
    apply In_get_student_activities in Hname as (a & HIn & _).
    now apply In_keys with (v := a).
  - rewrite Hok. cbn [bind]. discriminate.
  - rewrite Hraise. cbn [bind]. intros H. inversion H. reflexivity.
Qed.

Lemma remove_client_error db activity_name email e :
  remove_from_activity db activity_name email = Raise e ->
  client_error e = true.
Proof.
  unfold remove_from_activity, subscript, contains.
  destruct (get db activity_name) as [activity|]; cbn [bind negb];
    [|intros H; inversion H; reflexivity].
  destruct (mem email (participants activity)) eqn:Hmem; cbn [negb];
    [|intros H; inversion H; reflexivity].
  apply mem_true in Hmem. destruct (remove_present email _ Hmem) as (ps & ->).
  cbn [bind]. discriminate.
Qed.

(** X16. Started from the seed, the service never fails with an exception of
    its own making: after any sequence of requests, a request either succeeds
    or raises an [HTTPException] with status 404 or 400, never a [KeyError]
    or a [ValueError]. *)
Theorem service_raises_client_errors_only requests r e :
  dispatch (run activities requests) r = Raise e ->
  exists status_code detail,
    e = HTTPException status_code detail /\
    (status_code = 404 \/ status_code = 400)%Z.
Proof.
  intros H.
  assert (Hc : client_error e = true).
  { destruct r as [name email|name email]; simpl in H.
    - exact (signup_client_error _ name email e (run_well_formed requests) H).
    - exact (remove_client_error _ name email e H). }
  destruct e as [status_code detail|key|]; simpl in Hc; try discriminate.
  exists status_code, detail. split; [reflexivity|].
  apply orb_true_iff in Hc as [Hc|Hc]; apply Z.eqb_eq in Hc; auto.
Qed.

Lemma service_raises_client_errors_only_witness :
  exists status_code detail,
    HTTPException 400
      "Student is already enrolled in 3 activities. Cannot enroll in more than 3 programs."
    = HTTPException status_code detail /\
    (status_code = 404 \/ status_code = 400)%Z.
Proof.
  refine (service_raises_client_errors_only
            [ Signup "Chess Club" busy_student;
              Signup "Programming Class" busy_student;
              Signup "Debate Team" busy_student ]
            (Signup "Art Club" busy_student) _ _).
  vm_compute. reflexivity.
Defined.
